(** * asrel: CAIDA AS-relationship database

    A shallow embedding of [asrel.py] and the properties of its line
    classifier, its loader and its direction-aware lookup.

    The module is Python 2 code: the lines read from the gzip stream are
    byte strings, [\d] is [0-9] and [\s] is the six ASCII whitespace
    characters.  Byte strings are [string], Python integers are [Z], the
    dictionary [pair2rel] is a [gmap (Z * Z) Z], the three sets are [gset]s.
    A method of [ASRelationshipsDB] is a function in a state-and-exception
    monad over the object's four fields. *)

From Stdlib Require Import ZArith String Ascii List DecimalString Lia.
From stdpp Require Import gmap strings.

Open Scope string_scope.
Open Scope Z_scope.

(** Concatenation of a literal prefix computes under [simpl]. *)
#[global] Arguments String.append !s1 s2 : simpl nomatch.

(** ** The Python builtins the module uses *)

Module Py.

(** The exceptions that the module can raise. [KeyError] carries its
    message. *)
Inductive exn : Type :=
| AssertionError
| IndexError
| ValueError
| TypeError
| KeyError (msg : string).

(** A computation that returns or raises. *)
Definition result (A : Type) : Type := exn + A.
Definition OK {A} (a : A) : result A := inr a.
Definition Raise {A} (e : exn) : result A := inl e.

(** [c.isspace()] for a byte: space, \t, \n, \v, \f, \r. *)
Definition isspace (c : ascii) : bool :=
  let n := nat_of_ascii c in
  ((n =? 32) || ((9 <=? n) && (n <=? 13)))%nat.

(** [\d] for a byte. *)
Definition isdigit (c : ascii) : bool :=
  let n := nat_of_ascii c in
  ((48 <=? n) && (n <=? 57))%nat.

Fixpoint lstrip (s : string) : string :=
  match s with
  | String c s' => if isspace c then lstrip s' else s
  | EmptyString => EmptyString
  end.

Fixpoint rstrip (s : string) : string :=
  match s with
  | String c s' =>
      match rstrip s' with
      | EmptyString => if isspace c then EmptyString else String c EmptyString
      | r => String c r
      end
  | EmptyString => EmptyString
  end.

(** [s.strip()] *)
Definition strip (s : string) : string := rstrip (lstrip s).

(** [s.split()]: the maximal runs of non-whitespace bytes. *)
Fixpoint split (s : string) : list string :=
  match s with
  | String c s' =>
      if isspace c then split s'
      else match s' with
           | String d _ =>
               if isspace d then String c EmptyString :: split s'
               else match split s' with
                    | t :: ts => String c t :: ts
                    | [] => [String c EmptyString]
                    end
           | EmptyString => [String c EmptyString]
           end
  | EmptyString => []
  end.

(** [s.split(sep)] for a one-byte separator: never empty. *)
Fixpoint split_on (sep : ascii) (s : string) : list string :=
  match s with
  | String c s' =>
      if Ascii.eqb c sep then EmptyString :: split_on sep s'
      else match split_on sep s' with
           | t :: ts => String c t :: ts
           | [] => [String c EmptyString]
           end
  | EmptyString => [EmptyString]
  end.

Definition digit_value (c : ascii) : Z := Z.of_nat (nat_of_ascii c) - 48.

(** The value of a run of decimal digits, most significant first; [None]
    when a byte is not a digit. *)
Fixpoint digits_value (acc : Z) (s : string) : option Z :=
  match s with
  | String c s' =>
      if isdigit c then digits_value (10 * acc + digit_value c) s' else None
  | EmptyString => Some acc
  end.

Definition unsigned_value (s : string) : option Z :=
  match s with
  | EmptyString => None
  | _ => digits_value 0 s
  end.

(** [int(s)] in base ten: surrounding whitespace is dropped, one sign is
    allowed, at least one digit is required; anything else is a
    [ValueError].  Python integers are unbounded. *)
Definition int (s : string) : result Z :=
  let v := match strip s with
           | String c ds =>
               if Ascii.eqb c "-" then Z.opp <$> unsigned_value ds
               else if Ascii.eqb c "+" then unsigned_value ds
               else unsigned_value (String c ds)
           | EmptyString => None
           end in
  match v with
  | Some z => OK z
  | None => Raise ValueError
  end.

(** ['%d' % z] *)
Definition fmt_d (z : Z) : string := NilZero.string_of_int (Z.to_int z).

(** [s[0]] *)
Definition index0 (s : string) : result ascii :=
  match s with
  | String c _ => OK c
  | EmptyString => Raise IndexError
  end.

End Py.

Import Py.

(** ** The regular expressions

    Each pattern is anchored at both ends and has no alternation, so
    [re.match] is a left-to-right scan.  [$] matches at the end of the
    string and also just before a final newline. *)

Module Re.

(** Remove a literal prefix. *)
Fixpoint literal (p s : string) : option string :=
  match p with
  | String c p' =>
      match s with
      | String d s' => if Ascii.eqb c d then literal p' s' else None
      | EmptyString => None
      end
  | EmptyString => Some s
  end.

(** The longest prefix whose bytes are in the class, and the rest. *)
Fixpoint span (cls : ascii -> bool) (s : string) : string * string :=
  match s with
  | String c s' =>
      if cls c then let (a, b) := span cls s' in (String c a, b)
      else (EmptyString, s)
  | EmptyString => (EmptyString, EmptyString)
  end.

(** [(cls+)]: a greedy non-empty run. *)
Definition plus (cls : ascii -> bool) (s : string) : option (string * string) :=
  match span cls s with
  | (EmptyString, _) => None
  | r => Some r
  end.

(** [$] *)
Definition at_dollar (s : string) : bool :=
  match s with
  | EmptyString => true
  | String c EmptyString => Ascii.eqb c "010"
  | _ => false
  end.

(** [.] *)
Definition dot (c : ascii) : bool := negb (Ascii.eqb c "010").

(** [[\d\s]] *)
Definition digit_or_space (c : ascii) : bool := isdigit c || isspace c.

(** [[0-9-]] *)
Definition digit_or_minus (c : ascii) : bool := isdigit c || Ascii.eqb c "-".

(** The pattern of [_parse_source]: the literal [# source:], then a group
    of any bytes but the newline, then [$]; returns group 1. *)
Definition source (line : string) : option string :=
  match literal "# source:" line with
  | Some rest =>
      let (g, tl) := span dot rest in
      if at_dollar tl then Some g else None
  | None => None
  end.

(** [^<prefix>([\d\s]+)$], returning group 1.  The class contains the
    newline, so the greedy run must reach the end of the string. *)
Definition int_list (prefix line : string) : option string :=
  match literal prefix line with
  | Some rest =>
      match plus digit_or_space rest with
      | Some (g, EmptyString) => Some g
      | _ => None
      end
  | None => None
  end.

(** [^# inferred clique: ([\d\s]+)$] *)
Definition clique : string -> option string := int_list "# inferred clique: ".

(** [^# IXP ASes: ([\d\s]+)$] *)
Definition ixps : string -> option string := int_list "# IXP ASes: ".

(** A literal [|]. *)
Definition pipe (s : string) : option string :=
  match s with
  | String c s' => if Ascii.eqb c "|" then Some s' else None
  | EmptyString => None
  end.

End Re.

(** [_relationship_regexp = re.compile(r'^(\d+)\|(\d+)\|([0-9-]+)$')],
    returning the three groups. *)
Definition _relationship_regexp (line : string) : option (string * string * string) :=
  match Re.plus isdigit line with
  | Some (g1, r1) =>
      match Re.pipe r1 with
      | Some r2 =>
          match Re.plus isdigit r2 with
          | Some (g2, r3) =>
              match Re.pipe r3 with
              | Some r4 =>
                  match Re.plus Re.digit_or_minus r4 with
                  | Some (g3, r5) =>
                      if Re.at_dollar r5 then Some (g1, g2, g3) else None
                  | None => None
                  end
              | None => None
              end
          | None => None
          end
      | None => None
      end
  | None => None
  end.

(** ** Module constants and the provenance record *)

Definition P2C : Z := -1.
Definition P2P : Z := 0.
Definition C2P : Z := 1.

(** [rel2str = {P2C: 'P2C', P2P: 'P2P', C2P: 'C2P'}] *)
Definition rel2str : gmap Z string :=
  <[P2C := "P2C"]> (<[P2P := "P2P"]> (<[C2P := "C2P"]> ∅)).

(** [_relationship_valid = set([P2C, P2P])] *)
Definition _relationship_valid : gset Z := {[P2C; P2P]}.

(** [DataSource = namedtuple('DataSource', ['dtype', 'proto', 'date', 'feed',
    'collector'])] *)
Record DataSource : Type := mkDataSource {
  dtype : string;
  proto : string;
  date : string;
  feed : string;
  collector : string
}.

#[global] Instance DataSource_eq_dec : EqDecision DataSource.
Proof. solve_decision. Defined.

#[global] Instance DataSource_countable : Countable DataSource.
Proof.
  refine (inj_countable'
    (fun s => (dtype s, proto s, date s, feed s, collector s))
    (fun t => match t with (a, b, c, d, e) => mkDataSource a b c d e end) _).
  intros []; reflexivity.
Defined.

(** [DataSource( *fields )]: exactly five positional arguments, otherwise a
    [TypeError]. *)
Definition DataSource_new (fields : list string) : result DataSource :=
  match fields with
  | [a; b; c; d; e] => OK (mkDataSource a b c d e)
  | _ => Raise TypeError
  end.

(** ** The relationship table *)

(** The four fields of an [ASRelationshipsDB] object. *)
Record ASRelationshipsDB : Type := mkDB {
  sources : gset DataSource;
  clique : gset Z;
  ixps : gset Z;
  pair2rel : gmap (Z * Z) Z
}.

Definition set_sources (v : gset DataSource) (self : ASRelationshipsDB) :=
  mkDB v (clique self) (ixps self) (pair2rel self).
Definition set_clique (v : gset Z) (self : ASRelationshipsDB) :=
  mkDB (sources self) v (ixps self) (pair2rel self).
Definition set_ixps (v : gset Z) (self : ASRelationshipsDB) :=
  mkDB (sources self) (clique self) v (pair2rel self).
Definition set_pair2rel (v : gmap (Z * Z) Z) (self : ASRelationshipsDB) :=
  mkDB (sources self) (clique self) (ixps self) v.

(** A method body: it reads and updates [self], and returns or raises.  An
    exception leaves no object behind. *)
Definition M (A : Type) : Type := ASRelationshipsDB -> result (A * ASRelationshipsDB).

Definition ret {A} (a : A) : M A := fun self => OK (a, self).

Definition bind {A B} (m : M A) (k : A -> M B) : M B :=
  fun self =>
    match m self with
    | inr (a, self') => k a self'
    | inl e => Raise e
    end.

Definition lift {A} (r : result A) : M A :=
  fun self =>
    match r with
    | inr a => OK (a, self)
    | inl e => Raise e
    end.

Definition read {A} (f : ASRelationshipsDB -> A) : M A := fun self => OK (f self, self).

Definition update (f : ASRelationshipsDB -> ASRelationshipsDB) : M unit :=
  fun self => OK (tt, f self).

(** [assert b] *)
Definition assert (b : bool) : M unit :=
  fun self => if b then OK (tt, self) else Raise AssertionError.

Declare Scope py_scope.
Delimit Scope py_scope with py.
Notation "x <- m ;; k" := (bind m (fun x => k))
  (at level 100, m at next level, right associativity) : py_scope.
Notation "m ;; k" := (bind m (fun _ => k))
  (at level 100, right associativity) : py_scope.
Open Scope py_scope.

(** [set(int(asn) for asn in group.split())] *)
Fixpoint int_set (tokens : list string) : result (gset Z) :=
  match tokens with
  | t :: ts =>
      match Py.int t with
      | inr z =>
          match int_set ts with
          | inr s => OK ({[z]} ∪ s)
          | inl e => Raise e
          end
      | inl e => Raise e
      end
  | [] => OK ∅
  end.

Definition _parse_source (line : string) : M bool :=
  match Re.source line with
  | None => ret false
  | Some g =>
      src <- lift (DataSource_new (Py.split_on "|" g)) ;;
      assert (String.eqb (dtype src) "topology") ;;
      assert (String.eqb (proto src) "BGP") ;;
      d <- lift (Py.int (date src)) ;;
      assert (0 <? d) ;;
      update (fun self => set_sources ({[src]} ∪ sources self) self) ;;
      ret true
  end.

Definition _parse_clique (line : string) : M bool :=
  match Re.clique line with
  | None => ret false
  | Some g =>
      s <- lift (int_set (Py.split g)) ;;
      update (set_clique s) ;;
      ret true
  end.

Definition _parse_ixps (line : string) : M bool :=
  match Re.ixps line with
  | None => ret false
  | Some g =>
      s <- lift (int_set (Py.split g)) ;;
      update (set_ixps s) ;;
      ret true
  end.

Definition _parse_relationship (line : string) : M bool :=
  match _relationship_regexp line with
  | None => ret false
  | Some (g1, g2, g3) =>
      as1 <- lift (Py.int g1) ;;
      as2 <- lift (Py.int g2) ;;
      rel <- lift (Py.int g3) ;;
      assert (bool_decide (rel ∈ _relationship_valid)) ;;
      update (fun self => set_pair2rel (<[(as1, as2) := rel]> (pair2rel self)) self) ;;
      ret true
  end.

(** The body of the [for line in fd] loop of [__init__]. *)
Definition process_line (raw : string) : M unit :=
  let line := Py.strip raw in
  b <- _parse_source line ;;
  if b : bool then ret tt else
  b <- _parse_clique line ;;
  if b : bool then ret tt else
  b <- _parse_ixps line ;;
  if b : bool then ret tt else
  b <- _parse_relationship line ;;
  if b : bool then ret tt else
  c <- lift (Py.index0 line) ;;
  assert (Ascii.eqb c "#").

Fixpoint for_each (fd : list string) : M unit :=
  match fd with
  | raw :: fd' => process_line raw ;; for_each fd'
  | [] => ret tt
  end.

(** The four fields as [__init__] creates them. *)
Definition new_db : ASRelationshipsDB := mkDB ∅ ∅ ∅ ∅.

(** The four assertions that end [__init__]. *)
Definition check_loaded : M unit :=
  s <- read sources ;; assert (bool_decide (s ≠ ∅)) ;;
  c <- read clique ;; assert (bool_decide (c ≠ ∅)) ;;
  i <- read ixps ;; assert (bool_decide (i ≠ ∅)) ;;
  p <- read pair2rel ;; assert (bool_decide (1000 < size p)%nat).

(** [ASRelationshipsDB(fn)], on the lines that the opened file yields. *)
Definition __init__ (fd : list string) : result ASRelationshipsDB :=
  match (for_each fd ;; check_loaded) new_db with
  | inr (_, self) => OK self
  | inl e => Raise e
  end.

Definition __getitem__ (self : ASRelationshipsDB) (pair : Z * Z) : result Z :=
  match pair2rel self !! pair with
  | Some r => OK r
  | None =>
      let pair := (snd pair, fst pair) in
      match pair2rel self !! pair with
      | Some r => OK (-1 * r)
      | None =>
          Raise (KeyError ("unknown relationship " ++ Py.fmt_d (snd pair)
                           ++ "-" ++ Py.fmt_d (fst pair)))
      end
  end.

(** [get(pair, missing)]: the result is a code or the caller's value. *)
Definition get {A} (self : ASRelationshipsDB) (pair : Z * Z) (missing : A)
  : result (Z + A) :=
  match __getitem__ self pair with
  | inr r => OK (inl r)
  | inl (KeyError _) => OK (inr missing)
  | inl e => Raise e
  end.

(** [assert r == v], where evaluating [r] may raise. *)
Definition expect (r : result Z) (v : Z) : result unit :=
  match r with
  | inr x => if x =? v then OK tt else Raise AssertionError
  | inl e => Raise e
  end.

(** The self-test that runs when the module is executed as a script, on
    the lines of the file that it opens. *)
Definition __main__ (fd : list string) : result unit :=
  match __init__ fd with
  | inl e => Raise e
  | inr db =>
      match expect (__getitem__ db (1, 2)) (-1) with
      | inl e => Raise e
      | inr _ =>
          match expect (__getitem__ db (2, 1)) 1 with
          | inl e => Raise e
          | inr _ =>
              match expect (__getitem__ db (1, 1614)) 0 with
              | inl e => Raise e
              | inr _ => expect (__getitem__ db (1614, 1)) 0
              end
          end
      end
  end.

(** ** Vocabulary of the properties *)

(** Every byte of [s] is in the class. *)
Fixpoint all_bytes (cls : ascii -> bool) (s : string) : bool :=
  match s with
  | String c s' => cls c && all_bytes cls s'
  | EmptyString => true
  end.

(** A non-empty run of bytes of the class: what [(cls+)] captures. *)
Definition run (cls : ascii -> bool) (s : string) : Prop :=
  s <> EmptyString /\ all_bytes cls s = true.

(** Every stored code is [P2C] or [P2P]. *)
Definition codes_valid (self : ASRelationshipsDB) : Prop :=
  forall pair r, pair2rel self !! pair = Some r -> r = P2C \/ r = P2P.

(** What the four final assertions of [__init__] test. *)
Definition loaded (self : ASRelationshipsDB) : Prop :=
  sources self <> ∅ /\ clique self <> ∅ /\ ixps self <> ∅ /\
  (1000 < size (pair2rel self))%nat.

(** What a trimmed line does to the object when the loop body returns: the
    five ways through the cascade of [__init__]. *)
Inductive line_effect (line : string) (self : ASRelationshipsDB)
  : ASRelationshipsDB -> Prop :=
| effect_source g src d :
    Re.source line = Some g ->
    DataSource_new (Py.split_on "|" g) = OK src ->
    dtype src = "topology" ->
    proto src = "BGP" ->
    Py.int (date src) = OK d ->
    0 < d ->
    line_effect line self (set_sources ({[src]} ∪ sources self) self)
| effect_clique g s :
    Re.source line = None ->
    Re.clique line = Some g ->
    int_set (Py.split g) = OK s ->
    line_effect line self (set_clique s self)
| effect_ixps g s :
    Re.source line = None ->
    Re.clique line = None ->
    Re.ixps line = Some g ->
    int_set (Py.split g) = OK s ->
    line_effect line self (set_ixps s self)
| effect_relationship g1 g2 g3 as1 as2 rel :
    Re.source line = None ->
    Re.clique line = None ->
    Re.ixps line = None ->
    _relationship_regexp line = Some (g1, g2, g3) ->
    Py.int g1 = OK as1 ->
    Py.int g2 = OK as2 ->
    Py.int g3 = OK rel ->
    rel = P2C \/ rel = P2P ->
    line_effect line self
      (set_pair2rel (<[(as1, as2) := rel]> (pair2rel self)) self)
| effect_comment rest :
    Re.source line = None ->
    Re.clique line = None ->
    Re.ixps line = None ->
    _relationship_regexp line = None ->
    line = String "#" rest ->
    line_effect line self self.

(** The exception of a trimmed line on which the loop body raises: the
    nine ways out of the cascade of [__init__] by an exception. *)
Inductive line_raises (line : string) : exn -> Prop :=
| raises_arity g :
    Re.source line = Some g ->
    length (Py.split_on "|" g) <> 5%nat ->
    line_raises line TypeError
| raises_dtype g src :
    Re.source line = Some g ->
    DataSource_new (Py.split_on "|" g) = OK src ->
    dtype src <> "topology" ->
    line_raises line AssertionError
| raises_proto g src :
    Re.source line = Some g ->
    DataSource_new (Py.split_on "|" g) = OK src ->
    dtype src = "topology" ->
    proto src <> "BGP" ->
    line_raises line AssertionError
| raises_date g src :
    Re.source line = Some g ->
    DataSource_new (Py.split_on "|" g) = OK src ->
    dtype src = "topology" ->
    proto src = "BGP" ->
    Py.int (date src) = Raise ValueError ->
    line_raises line ValueError
| raises_date_sign g src d :
    Re.source line = Some g ->
    DataSource_new (Py.split_on "|" g) = OK src ->
    dtype src = "topology" ->
    proto src = "BGP" ->
    Py.int (date src) = OK d ->
    d <= 0 ->
    line_raises line AssertionError
| raises_code g1 g2 g3 :
    _relationship_regexp line = Some (g1, g2, g3) ->
    Py.int g3 = Raise ValueError ->
    line_raises line ValueError
| raises_code_value g1 g2 g3 rel :
    _relationship_regexp line = Some (g1, g2, g3) ->
    Py.int g3 = OK rel ->
    rel <> P2C -> rel <> P2P ->
    line_raises line AssertionError
| raises_empty :
    line = EmptyString ->
    line_raises line IndexError
| raises_unmatched c rest :
    Re.source line = None ->
    Re.clique line = None ->
    Re.ixps line = None ->
    _relationship_regexp line = None ->
    line = String c rest ->
    c <> "#"%char ->
    line_raises line AssertionError.

(** The line raises whatever the object holds when it is read. *)
Definition fatal (raw : string) : Prop :=
  forall self, exists e, process_line raw self = Raise e.

(** A feed in the dataset's format, as the opened file yields it (each line
    ends in a newline): a comment, one provenance line, the clique, the
    exchange points, and relationship lines.  [1|2] and [3|4] are also
    listed the other way round, and [7|7] relates an AS to itself. *)
Definition nl : string := String "010" EmptyString.

Definition rel_line (as1 as2 rel : Z) : string :=
  Py.fmt_d as1 ++ "|" ++ Py.fmt_d as2 ++ "|" ++ Py.fmt_d rel ++ nl.

Definition sample_header : list string :=
  [ "# inferred AS relationships" ++ nl;
    "# source:topology|BGP|20130801|routeviews|route-views2" ++ nl;
    "# inferred clique: 174 209 286 701" ++ nl;
    "# IXP ASes: 1200 4635 5507" ++ nl ].

Definition sample_feed : list string :=
  sample_header ++
  [ rel_line 1 2 P2C; rel_line 2 1 P2C; rel_line 1 1614 P2P;
    rel_line 3 4 P2P; rel_line 4 3 P2C; rel_line 7 7 P2C ] ++
  map (fun k => rel_line k (k + 1) P2P) (seqZ 10 1000).

(** The table that [sample_feed] loads into. *)
Definition sample_db : ASRelationshipsDB :=
  match __init__ sample_feed with
  | inr self => self
  | inl _ => new_db
  end.

(** A feed too short to pass the final assertions. *)
Definition short_feed : list string :=
  sample_header ++
  [ rel_line 1 2 P2C; rel_line 1 2 P2P; rel_line 2 1 P2C; rel_line 1 1614 P2P ].

(** The object as the loop leaves it on [short_feed]. *)
Definition short_db : ASRelationshipsDB :=
  match for_each short_feed new_db with
  | inr (_, self) => self
  | inl _ => new_db
  end.

(** A feed that lists AS1 as a provider of AS2 and as a peer of AS1614,
    each in one order only. *)
Definition selftest_feed : list string :=
  sample_header ++
  [ rel_line 1 2 P2C; rel_line 1 1614 P2P ] ++
  map (fun k => rel_line k (k + 1) P2P) (seqZ 10 1000).

(** The number of occurrences of a byte. *)
Fixpoint count_byte (b : ascii) (s : string) : nat :=
  match s with
  | String c s' => (if Ascii.eqb c b then 1 else 0) + count_byte b s'
  | EmptyString => 0
  end.

(** No pair is stored in both orders with codes that are not mirror images
    of each other. *)
Definition mirrored (self : ASRelationshipsDB) : Prop :=
  map_Forall
    (fun pair r =>
       pair2rel self !! (snd pair, fst pair) = None \/
       pair2rel self !! (snd pair, fst pair) = Some (- r))
    (pair2rel self).

(** How many of the three sets are not empty, plus the number of stored
    pairs: what a feed has to build up line by line. *)
Definition filled {A} `{Countable A} (X : gset A) : nat :=
  if decide (X = ∅) then 0 else 1.

Definition progress (self : ASRelationshipsDB) : nat :=
  size (pair2rel self) + filled (sources self) + filled (clique self)
  + filled (ixps self).

(** ** Byte classes and string functions *)

Lemma digit_not_space c : isdigit c = true -> isspace c = false.
Proof.
  unfold isdigit, isspace. intros H.
  apply andb_true_iff in H as [H1 H2].
  apply Nat.leb_le in H1. apply Nat.leb_le in H2.
  apply orb_false_iff. split.
  - apply Nat.eqb_neq. lia.
  - apply andb_false_iff. right. apply Nat.leb_gt. lia.
Qed.

Lemma digit_neq c d : isdigit c = true -> isdigit d = false -> Ascii.eqb c d = false.
Proof.
  intros Hc Hd. destruct (Ascii.eqb_spec c d) as [->|]; congruence.
Qed.

Lemma digit_neq_sym c d : isdigit c = true -> isdigit d = false -> Ascii.eqb d c = false.
Proof.
  intros Hc Hd. destruct (Ascii.eqb_spec d c) as [->|]; congruence.
Qed.

Lemma append_assoc (a b c : string) : (a ++ b) ++ c = a ++ (b ++ c).
Proof. induction a as [|x a IH]; simpl; [reflexivity | now rewrite IH]. Qed.

Lemma append_nil_r (a : string) : a ++ EmptyString = a.
Proof. induction a as [|x a IH]; simpl; [reflexivity | now rewrite IH]. Qed.

Lemma literal_append p s : Re.literal p (p ++ s) = Some s.
Proof.
  induction p as [|c p IH]; simpl; [reflexivity|].
  now rewrite Ascii.eqb_refl.
Qed.

Lemma literal_Some p s rest : Re.literal p s = Some rest -> s = p ++ rest.
Proof.
  revert s. induction p as [|c p IH]; simpl; intros s H.
  - congruence.
  - destruct s as [|d s]; [discriminate|].
    destruct (Ascii.eqb_spec c d) as [->|]; [|discriminate].
    f_equal. now apply IH.
Qed.

(** The greedy scan stops exactly where the class ends. *)
Lemma span_run cls g rest :
  all_bytes cls g = true ->
  match rest with String c _ => cls c = false | EmptyString => True end ->
  Re.span cls (g ++ rest) = (g, rest).
Proof.
  intros Hg Hrest. induction g as [|c g IH]; simpl in *.
  - destruct rest as [|c rest]; [reflexivity|]. simpl. now rewrite Hrest.
  - apply andb_true_iff in Hg as [Hc Hg]. rewrite Hc, (IH Hg). reflexivity.
Qed.

Lemma span_spec cls s g rest :
  Re.span cls s = (g, rest) -> s = g ++ rest /\ all_bytes cls g = true.
Proof.
  revert g rest. induction s as [|c s IH]; simpl; intros g rest H.
  - inversion H. split; reflexivity.
  - destruct (cls c) eqn:Hc.
    + destruct (Re.span cls s) as [a b]. inversion H; subst.
      destruct (IH a rest eq_refl) as [-> Ha]. simpl. rewrite Hc, Ha. split; reflexivity.
    + inversion H. split; reflexivity.
Qed.

Lemma plus_run cls g rest :
  run cls g ->
  match rest with String c _ => cls c = false | EmptyString => True end ->
  Re.plus cls (g ++ rest) = Some (g, rest).
Proof.
  intros [Hne Hg] Hrest. unfold Re.plus. rewrite (span_run _ _ _ Hg Hrest).
  destruct g; [congruence | reflexivity].
Qed.

Lemma plus_spec cls s g rest :
  Re.plus cls s = Some (g, rest) -> s = g ++ rest /\ run cls g.
Proof.
  unfold Re.plus. destruct (Re.span cls s) as [a b] eqn:Hs. intros H.
  destruct a as [|c a]; [discriminate|]. inversion H; subst.
  destruct (span_spec _ _ _ _ Hs) as [-> Ha]. repeat split; [discriminate | exact Ha].
Qed.

Lemma all_bytes_impl (p q : ascii -> bool) s :
  (forall c, p c = true -> q c = true) -> all_bytes p s = true -> all_bytes q s = true.
Proof.
  intros Hpq. induction s as [|c s IH]; simpl; [reflexivity|].
  intros H. apply andb_true_iff in H as [Hc Hs]. now rewrite (Hpq _ Hc), IH.
Qed.

(** [strip] of blank and of space-free strings. *)
Lemma lstrip_blank s : all_bytes isspace s = true -> lstrip s = EmptyString.
Proof.
  induction s as [|c s IH]; simpl; [reflexivity|].
  intros H. apply andb_true_iff in H as [Hc Hs]. now rewrite Hc, IH.
Qed.

Lemma strip_blank s : all_bytes isspace s = true -> strip s = EmptyString.
Proof. intros H. unfold strip. now rewrite lstrip_blank. Qed.

Lemma rstrip_no_space s :
  all_bytes (fun c => negb (isspace c)) s = true -> rstrip s = s.
Proof.
  induction s as [|c s IH]; simpl; [reflexivity|].
  intros H. apply andb_true_iff in H as [Hc Hs]. rewrite (IH Hs).
  apply negb_true_iff in Hc. rewrite Hc. destruct s; reflexivity.
Qed.

Lemma strip_no_space s :
  all_bytes (fun c => negb (isspace c)) s = true -> strip s = s.
Proof.
  intros H. unfold strip.
  assert (lstrip s = s) as ->.
  { destruct s as [|c s]; [reflexivity|]. simpl in *.
    apply andb_true_iff in H as [Hc _]. apply negb_true_iff in Hc. now rewrite Hc. }
  now apply rstrip_no_space.
Qed.

Lemma strip_digits s : all_bytes isdigit s = true -> strip s = s.
Proof.
  intros H. apply strip_no_space. revert H. apply all_bytes_impl.
  intros c Hc. now rewrite (digit_not_space _ Hc).
Qed.

(** ** [int] and [split] on what the patterns capture *)

Lemma digit_value_nonneg c : isdigit c = true -> 0 <= digit_value c.
Proof.
  unfold isdigit, digit_value. intros H.
  apply andb_true_iff in H as [H _]. apply Nat.leb_le in H. lia.
Qed.

Lemma digits_value_Some s : forall acc,
  all_bytes isdigit s = true -> 0 <= acc ->
  exists n, digits_value acc s = Some n /\ 0 <= n.
Proof.
  induction s as [|c s IH]; simpl; intros acc H Hacc.
  - exists acc. split; [reflexivity | exact Hacc].
  - apply andb_true_iff in H as [Hc Hs]. rewrite Hc.
    apply IH; [exact Hs|]. pose proof (digit_value_nonneg _ Hc). lia.
Qed.

(** [int] never fails on a captured [\d+] group, and the value is an AS
    number: not negative. *)
Lemma int_digits s : run isdigit s -> exists n, Py.int s = OK n /\ 0 <= n.
Proof.
  intros [Hne Hall]. unfold Py.int. rewrite (strip_digits _ Hall).
  destruct s as [|c s]; [congruence|].
  pose proof Hall as Hall'. simpl in Hall'.
  apply andb_true_iff in Hall' as [Hc _].
  rewrite (digit_neq c "-" Hc eq_refl), (digit_neq c "+" Hc eq_refl).
  unfold unsigned_value.
  destruct (digits_value_Some (String c s) 0 Hall) as (n & -> & Hn); [lia|].
  exists n. split; [reflexivity | exact Hn].
Qed.

Lemma split_tokens s :
  all_bytes Re.digit_or_space s = true -> Forall (run isdigit) (Py.split s).
Proof.
  induction s as [|c s IH]; intros H; [constructor|].
  cbn [all_bytes] in H. apply andb_true_iff in H as [Hc Hs].
  specialize (IH Hs). cbn [Py.split].
  destruct (isspace c) eqn:Hsp; [exact IH|].
  assert (isdigit c = true) as Hd.
  { unfold Re.digit_or_space in Hc. rewrite Hsp in Hc.
    now rewrite orb_false_r in Hc. }
  assert (run isdigit (String c EmptyString)) as Hone.
  { split; [discriminate | simpl; now rewrite Hd]. }
  destruct s as [|d s]; [repeat constructor; apply Hone|].
  destruct (isspace d); [constructor; [apply Hone | exact IH]|].
  destruct (Py.split (String d s)) as [|t ts]; [repeat constructor; apply Hone|].
  inversion IH as [|? ? [Ht Hta] Hts]; subst.
  constructor; [|exact Hts].
  split; [discriminate | simpl; now rewrite Hd, Hta].
Qed.

Lemma int_set_OK tokens :
  Forall (run isdigit) tokens -> exists s, int_set tokens = OK s.
Proof.
  induction 1 as [|t ts Ht _ [s IH]]; simpl.
  - eexists; reflexivity.
  - destruct (int_digits t Ht) as (n & -> & _). rewrite IH. eexists; reflexivity.
Qed.

(** The set built from the tokens holds exactly their values. *)
Lemma int_set_spec tokens : forall s,
  int_set tokens = OK s ->
  forall z, z ∈ s <-> exists t, In t tokens /\ Py.int t = OK z.
Proof.
  induction tokens as [|t ts IH]; simpl; intros s H z.
  - inversion H; subst. split; [set_solver | intros (t & [] & _)].
  - destruct (Py.int t) as [e|n] eqn:Hn; [discriminate|].
    destruct (int_set ts) as [e|s'] eqn:Hs; [discriminate|].
    inversion H; subst. rewrite elem_of_union, elem_of_singleton, (IH s' eq_refl z).
    split.
    + intros [->|(t' & Hin & Ht')]; [exists t | exists t']; auto.
    + intros (t' & [<-|Hin] & Ht'); [left | right; exists t']; auto.
      unfold OK in *. congruence.
Qed.

(** ** Monadic steps *)

Lemma bind_OK {A B} (m : M A) (k : A -> M B) self b self' :
  bind m k self = OK (b, self') <->
  exists a self1, m self = OK (a, self1) /\ k a self1 = OK (b, self').
Proof.
  unfold bind. split.
  - destruct (m self) as [e|[a self1]]; [discriminate|]. eauto.
  - intros (a & self1 & -> & H). exact H.
Qed.

Lemma for_each_app fd1 fd2 self :
  for_each (fd1 ++ fd2) self =
  match for_each fd1 self with
  | inr (_, self1) => for_each fd2 self1
  | inl e => Raise e
  end.
Proof.
  revert self. induction fd1 as [|raw fd1 IH]; intros self; simpl; [reflexivity|].
  unfold bind. destruct (process_line raw self) as [e|[[] self1]]; [reflexivity|].
  apply IH.
Qed.

(** ** The loop body *)

Ltac unfold_M :=
  unfold _parse_source, _parse_clique, _parse_ixps, _parse_relationship,
    bind, lift, assert, update, read, ret, OK, Raise in *.

(** The loop body returns exactly along one of the five ways of
    [line_effect]. *)
Lemma process_line_effect raw self self' :
  process_line raw self = OK (tt, self') <-> line_effect (Py.strip raw) self self'.
Proof.
  unfold process_line. generalize (Py.strip raw) as line. intros line. split.
  - unfold_M. intros H.
    destruct (Re.source line) as [g|] eqn:Hsrc.
    { destruct (DataSource_new (split_on "|" g)) as [e|src] eqn:Hnew; [discriminate|].
      destruct (String.eqb_spec (dtype src) "topology") as [Hd|]; [|discriminate].
      destruct (String.eqb_spec (proto src) "BGP") as [Hp|]; [|discriminate].
      destruct (Py.int (date src)) as [e|d] eqn:Hdate; [discriminate|].
      destruct (Z.ltb_spec 0 d) as [Hpos|]; [|discriminate].
      inversion H; subst. now apply (effect_source _ _ g src d). }
    destruct (Re.clique line) as [g|] eqn:Hcl.
    { destruct (int_set (split g)) as [e|s] eqn:Hs; [discriminate|].
      inversion H; subst. now apply (effect_clique _ _ g s). }
    destruct (Re.ixps line) as [g|] eqn:Hix.
    { destruct (int_set (split g)) as [e|s] eqn:Hs; [discriminate|].
      inversion H; subst. now apply (effect_ixps _ _ g s). }
    destruct (_relationship_regexp line) as [[[g1 g2] g3]|] eqn:Hrel.
    { destruct (Py.int g1) as [e|as1] eqn:H1; [discriminate|].
      destruct (Py.int g2) as [e|as2] eqn:H2; [discriminate|].
      destruct (Py.int g3) as [e|rel] eqn:H3; [discriminate|].
      case_bool_decide as Hv; [|discriminate].
      inversion H; subst.
      apply (effect_relationship _ _ g1 g2 g3 as1 as2 rel); auto.
      unfold _relationship_valid in Hv. set_solver. }
    destruct line as [|c rest]; [discriminate|]. simpl in H.
    destruct (Ascii.eqb_spec c "#") as [->|]; [|discriminate].
    inversion H; subst. now apply (effect_comment _ _ rest).
  - intros H. unfold_M. destruct H as
      [g src d Hsrc Hnew Hd Hp Hdate Hpos
      |g s Hsrc Hcl Hs
      |g s Hsrc Hcl Hix Hs
      |g1 g2 g3 as1 as2 rel Hsrc Hcl Hix Hrel H1 H2 H3 Hv
      |rest Hsrc Hcl Hix Hrel ->].
    + rewrite Hsrc. unfold OK in Hnew, Hdate. rewrite Hnew, Hd, Hp, Hdate. simpl.
      destruct (Z.ltb_spec 0 d); [reflexivity | lia].
    + rewrite Hsrc, Hcl. unfold OK in Hs. now rewrite Hs.
    + rewrite Hsrc, Hcl, Hix. unfold OK in Hs. now rewrite Hs.
    + rewrite Hsrc, Hcl, Hix, Hrel. unfold OK in H1, H2, H3. rewrite H1, H2, H3.
      rewrite bool_decide_eq_true_2; [reflexivity|].
      unfold _relationship_valid. set_solver.
    + rewrite Hsrc, Hcl, Hix, Hrel. reflexivity.
Qed.

(** Whether and what the loop body raises depends on the line alone. *)
Lemma process_line_raises raw self e :
  process_line raw self = Raise e -> forall self', process_line raw self' = Raise e.
Proof.
  unfold process_line. generalize (Py.strip raw) as line. intros line H self'.
  unfold_M.
  destruct (Re.source line) as [g|].
  { destruct (DataSource_new (split_on "|" g)) as [?|src]; [exact H|].
    destruct (String.eqb (dtype src) "topology"); [|exact H].
    destruct (String.eqb (proto src) "BGP"); [|exact H].
    destruct (Py.int (date src)) as [?|d]; [exact H|].
    destruct (0 <? d); [discriminate | exact H]. }
  destruct (Re.clique line) as [g|].
  { destruct (int_set (split g)); [exact H | discriminate]. }
  destruct (Re.ixps line) as [g|].
  { destruct (int_set (split g)); [exact H | discriminate]. }
  destruct (_relationship_regexp line) as [[[g1 g2] g3]|].
  { destruct (Py.int g1); [exact H|]. destruct (Py.int g2); [exact H|].
    destruct (Py.int g3); [exact H|].
    case_bool_decide; [discriminate | exact H]. }
  destruct (index0 line) as [?|c]; [exact H|].
  destruct (Ascii.eqb c "#"); [discriminate | exact H].
Qed.

(** A line that does not return raises: the loop body has no third outcome. *)
Lemma not_effect_fatal raw :
  (forall self self', ~ line_effect (Py.strip raw) self self') -> fatal raw.
Proof.
  intros H self. destruct (process_line raw self) as [e|[[] self']] eqn:Hp.
  - exists e. reflexivity.
  - exfalso. apply (H self self'). now apply process_line_effect.
Qed.

(** ** The loop and the constructor *)

Lemma for_each_invariant (P : ASRelationshipsDB -> Prop) :
  (forall line self self', P self -> line_effect line self self' -> P self') ->
  forall fd self self', P self -> for_each fd self = OK (tt, self') -> P self'.
Proof.
  intros Hstep. induction fd as [|raw fd IH]; simpl; intros self self' HP H.
  - inversion H; subst. exact HP.
  - apply bind_OK in H as ([] & self1 & H1 & H2).
    apply (IH self1); [|exact H2].
    apply (Hstep (Py.strip raw) self); [exact HP|]. now apply process_line_effect.
Qed.

(** One fatal line anywhere in the feed makes the loop raise. *)
Lemma for_each_fatal raw fd :
  In raw fd -> fatal raw -> forall self, exists e, for_each fd self = Raise e.
Proof.
  intros Hin Hf. induction fd as [|r fd IH]; [destruct Hin|].
  intros self. simpl. unfold bind.
  destruct (process_line r self) as [e|[[] self1]] eqn:Hr.
  - exists e. reflexivity.
  - destruct Hin as [->|Hin].
    + destruct (Hf self) as [e He]. unfold Raise in He. congruence.
    + apply (IH Hin).
Qed.

Lemma init_fatal raw fd : In raw fd -> fatal raw -> exists e, __init__ fd = Raise e.
Proof.
  intros Hin Hf. destruct (for_each_fatal raw fd Hin Hf new_db) as [e He].
  exists e. unfold __init__, bind. now rewrite He.
Qed.

(** The first line that raises decides the exception of the constructor. *)
Lemma init_raises_at pre raw post self1 e :
  for_each pre new_db = OK (tt, self1) ->
  process_line raw self1 = Raise e ->
  __init__ (pre ++ raw :: post) = Raise e.
Proof.
  intros Hpre Hraw. unfold __init__, bind. rewrite for_each_app.
  unfold OK in Hpre. rewrite Hpre. simpl. unfold bind.
  unfold Raise in Hraw. now rewrite Hraw.
Qed.

(** [__init__] is the loop followed by the four assertions. *)
Lemma init_OK fd self :
  __init__ fd = OK self <-> for_each fd new_db = OK (tt, self) /\ loaded self.
Proof.
  unfold __init__, bind at 1, loaded.
  destruct (for_each fd new_db) as [e|[[] self1]].
  - split; [discriminate | intros [H _]; discriminate].
  - unfold check_loaded, bind, read, assert, OK. split.
    + intros H. repeat case_bool_decide; try discriminate.
      inversion H; subst. tauto.
    + intros (Heq & Hs & Hc & Hi & Hn). inversion Heq; subst.
      now rewrite !bool_decide_eq_true_2 by assumption.
Qed.

Lemma init_not_loaded fd self :
  for_each fd new_db = OK (tt, self) -> ~ loaded self ->
  __init__ fd = Raise AssertionError.
Proof.
  intros Hfe Hnot. unfold __init__, bind at 1. unfold OK in Hfe. rewrite Hfe.
  unfold check_loaded, bind, read, assert, loaded, OK, Raise in *. cbn.
  repeat (case_bool_decide; cbn; [|reflexivity]). tauto.
Qed.

(** ** What the four patterns accept *)

Lemma relationship_regexp_fields g1 g2 g3 :
  run isdigit g1 -> run isdigit g2 -> run Re.digit_or_minus g3 ->
  _relationship_regexp (g1 ++ "|" ++ g2 ++ "|" ++ g3) = Some (g1, g2, g3).
Proof.
  intros H1 H2 H3. unfold _relationship_regexp.
  rewrite (plus_run isdigit g1 ("|" ++ g2 ++ "|" ++ g3) H1 eq_refl). simpl.
  rewrite (plus_run isdigit g2 (String "|" g3) H2 eq_refl). simpl.
  rewrite <- (append_nil_r g3) at 1.
  rewrite (plus_run Re.digit_or_minus g3 EmptyString H3 I). reflexivity.
Qed.

(** A matched line is three fields between two pipes, a final newline
    apart. *)
Lemma relationship_regexp_inv line g1 g2 g3 :
  _relationship_regexp line = Some (g1, g2, g3) ->
  run isdigit g1 /\ run isdigit g2 /\ run Re.digit_or_minus g3 /\
  (line = g1 ++ "|" ++ g2 ++ "|" ++ g3 \/ line = g1 ++ "|" ++ g2 ++ "|" ++ g3 ++ nl).
Proof.
  unfold _relationship_regexp. intros H.
  destruct (Re.plus isdigit line) as [[a r1]|] eqn:Ha; [|discriminate].
  apply plus_spec in Ha as [-> Ha].
  destruct r1 as [|c r2]; [discriminate|]. simpl in H.
  destruct (Ascii.eqb_spec c "|") as [->|]; [|discriminate].
  destruct (Re.plus isdigit r2) as [[b r3]|] eqn:Hb; [|discriminate].
  apply plus_spec in Hb as [-> Hb].
  destruct r3 as [|c r4]; [discriminate|]. simpl in H.
  destruct (Ascii.eqb_spec c "|") as [->|]; [|discriminate].
  destruct (Re.plus Re.digit_or_minus r4) as [[d r5]|] eqn:Hd; [|discriminate].
  apply plus_spec in Hd as [-> Hd].
  destruct r5 as [|c r5].
  - inversion H; subst. rewrite append_nil_r. auto.
  - destruct r5; [|discriminate]. simpl in H.
    destruct (Ascii.eqb_spec c "010") as [->|]; [|discriminate].
    inversion H; subst. repeat split; try apply Ha; try apply Hb; try apply Hd.
    right. reflexivity.
Qed.

Lemma digit_line_not_comment c rest :
  isdigit c = true ->
  Re.source (String c rest) = None /\ Re.clique (String c rest) = None /\
  Re.ixps (String c rest) = None.
Proof.
  intros Hc. unfold Re.source, Re.clique, Re.ixps, Re.int_list.
  cbn [Re.literal]. now rewrite (digit_neq_sym c "#" Hc eq_refl).
Qed.

(** A relationship line is not taken by an earlier pattern of the
    cascade. *)
Lemma relationship_line_reaches line g1 g2 g3 :
  _relationship_regexp line = Some (g1, g2, g3) ->
  Re.source line = None /\ Re.clique line = None /\ Re.ixps line = None.
Proof.
  intros H. apply relationship_regexp_inv in H as ([Hne Hall] & _ & _ & Hline).
  destruct g1 as [|c g1]; [congruence|].
  simpl in Hall. apply andb_true_iff in Hall as [Hc _].
  destruct Hline as [-> | ->]; simpl; now apply digit_line_not_comment.
Qed.

Lemma int_list_line prefix body :
  run Re.digit_or_space body -> Re.int_list prefix (prefix ++ body) = Some body.
Proof.
  intros H. unfold Re.int_list. rewrite literal_append.
  rewrite <- (append_nil_r body) at 1.
  rewrite (plus_run Re.digit_or_space body EmptyString H I). reflexivity.
Qed.

Lemma int_list_inv prefix line g :
  Re.int_list prefix line = Some g ->
  line = prefix ++ g /\ run Re.digit_or_space g.
Proof.
  unfold Re.int_list. intros H.
  destruct (Re.literal prefix line) as [rest|] eqn:Hp; [|discriminate].
  apply literal_Some in Hp as ->.
  destruct (Re.plus Re.digit_or_space rest) as [[a b]|] eqn:Ha; [|discriminate].
  destruct b; [|discriminate]. inversion H; subst.
  apply plus_spec in Ha as [-> Ha]. now rewrite append_nil_r.
Qed.

(** The integers of a captured [[\d\s]+] group always convert. *)
Lemma int_list_converts prefix line g :
  Re.int_list prefix line = Some g -> exists s, int_set (Py.split g) = OK s.
Proof.
  intros H. apply int_list_inv in H as [_ [_ Hall]].
  apply int_set_OK, split_tokens, Hall.
Qed.

Lemma clique_line_reaches line g : Re.clique line = Some g -> Re.source line = None.
Proof.
  intros H. apply int_list_inv in H as [-> _]. reflexivity.
Qed.

Lemma ixps_line_reaches line g :
  Re.ixps line = Some g -> Re.source line = None /\ Re.clique line = None.
Proof.
  intros H. apply int_list_inv in H as [-> _]. split; reflexivity.
Qed.

Lemma source_line body :
  all_bytes Re.dot body = true -> Re.source ("# source:" ++ body) = Some body.
Proof.
  intros H. unfold Re.source. rewrite literal_append.
  rewrite <- (append_nil_r body) at 1.
  rewrite (span_run Re.dot body EmptyString H I). reflexivity.
Qed.

(** ** The sample feeds *)

Lemma sample_loads : __init__ sample_feed = OK sample_db.
Proof.
  assert (H : match __init__ sample_feed with inl _ => false | inr _ => true end = true)
    by (vm_compute; reflexivity).
  unfold sample_db. destruct (__init__ sample_feed); [discriminate | reflexivity].
Qed.

Lemma short_loop : for_each short_feed new_db = OK (tt, short_db).
Proof.
  assert (H : match for_each short_feed new_db with inl _ => false | inr _ => true end = true)
    by (vm_compute; reflexivity).
  unfold short_db.
  destruct (for_each short_feed new_db) as [e|[[] self]]; [discriminate | reflexivity].
Qed.

Lemma short_db_size : size (pair2rel short_db) = 3%nat.
Proof. vm_compute. reflexivity. Qed.

(** ** Lookup *)

(** C2.  The strict lookup returns the code stored under the queried pair
    when there is one, whatever is stored under the reversed pair; when
    there is none and the reversed pair is a key, it returns the negation
    of the code stored under the reversed pair. *)
Theorem getitem_algorithm self queryFrom queryTo :
  (forall r, pair2rel self !! (queryFrom, queryTo) = Some r ->
     __getitem__ self (queryFrom, queryTo) = OK r) /\
  (forall r, pair2rel self !! (queryFrom, queryTo) = None ->
     pair2rel self !! (queryTo, queryFrom) = Some r ->
     __getitem__ self (queryFrom, queryTo) = OK (- r)).
Proof.
  unfold __getitem__. split; intros r.
  - intros ->. reflexivity.
  - intros ->. cbn [fst snd]. intros ->. unfold OK. f_equal; lia.
Qed.

Lemma getitem_algorithm_witness :
  __getitem__ short_db (2, 1) = OK P2C /\ __getitem__ short_db (1614, 1) = OK (- P2P)
  /\ __getitem__ short_db (1, 2) = OK P2P.
Proof.
  split; [|split].
  - apply (proj1 (getitem_algorithm short_db 2 1)). vm_compute. reflexivity.
  - apply (proj2 (getitem_algorithm short_db 1614 1)); vm_compute; reflexivity.
  - apply (proj1 (getitem_algorithm short_db 1 2)). vm_compute. reflexivity.
Defined.

(** C1 (amended).  For every pair [(a, b)] stored with code [r], the strict
    lookup of [(a, b)] returns [r]; the lookup of [(b, a)] returns [- r]
    provided [(b, a)] is not itself a key, and the code stored under
    [(b, a)] when it is one.  In particular a peer-peer pair whose reverse
    is not stored answers [P2P] in both directions. *)
Theorem symmetry_unless_reverse_stored self a b r :
  pair2rel self !! (a, b) = Some r ->
  __getitem__ self (a, b) = OK r /\
  (pair2rel self !! (b, a) = None -> __getitem__ self (b, a) = OK (- r)) /\
  (forall r', pair2rel self !! (b, a) = Some r' -> __getitem__ self (b, a) = OK r') /\
  (r = P2P -> pair2rel self !! (b, a) = None ->
   __getitem__ self (a, b) = OK P2P /\ __getitem__ self (b, a) = OK P2P).
Proof.
  intros Hab.
  assert (Hrev : pair2rel self !! (b, a) = None -> __getitem__ self (b, a) = OK (- r)).
  { intros Hba. unfold __getitem__. rewrite Hba. cbn [fst snd]. rewrite Hab.
    unfold OK. f_equal; lia. }
  assert (Hfwd : __getitem__ self (a, b) = OK r).
  { unfold __getitem__. now rewrite Hab. }
  repeat split.
  - exact Hfwd.
  - exact Hrev.
  - intros r' Hba. unfold __getitem__. now rewrite Hba.
  - subst r. exact Hfwd.
  - subst r. now apply Hrev.
Qed.

Lemma symmetry_unless_reverse_stored_witness :
  __getitem__ short_db (1, 1614) = OK P2P /\ __getitem__ short_db (1614, 1) = OK P2P.
Proof.
  assert (H : pair2rel short_db !! (1, 1614) = Some P2P) by (vm_compute; reflexivity).
  destruct (symmetry_unless_reverse_stored short_db 1 1614 P2P H) as (_ & _ & _ & Hp2p).
  apply Hp2p; [reflexivity | vm_compute; reflexivity].
Defined.

(** C1 as stated fails on a table that the constructor returns: the sample
    feed lists [1|2|-1] and [2|1|-1], so [(1, 2)] is stored with code [-1]
    and the lookup of [(2, 1)] returns the stored [-1], not [1]; it lists
    [3|4|0] and [4|3|-1], so the peer-peer pair [(3, 4)] is answered [-1]
    from the other side; and [7|7|-1] relates an AS to itself. *)
Lemma symmetry_counterexample :
  __init__ sample_feed = OK sample_db /\
  ~ (forall a b r, pair2rel sample_db !! (a, b) = Some r ->
       __getitem__ sample_db (a, b) = OK r /\
       __getitem__ sample_db (b, a) = OK (- r)) /\
  ~ (forall a b, pair2rel sample_db !! (a, b) = Some P2P ->
       __getitem__ sample_db (b, a) = OK P2P) /\
  pair2rel sample_db !! (7, 7) = Some P2C /\
  __getitem__ sample_db (7, 7) <> OK (- P2C).
Proof.
  split; [exact sample_loads|].
  assert (H12 : pair2rel sample_db !! (1, 2) = Some P2C) by (vm_compute; reflexivity).
  assert (H21 : __getitem__ sample_db (2, 1) = OK P2C) by (vm_compute; reflexivity).
  assert (H34 : pair2rel sample_db !! (3, 4) = Some P2P) by (vm_compute; reflexivity).
  assert (H43 : __getitem__ sample_db (4, 3) = OK P2C) by (vm_compute; reflexivity).
  assert (H77 : pair2rel sample_db !! (7, 7) = Some P2C) by (vm_compute; reflexivity).
  assert (G77 : __getitem__ sample_db (7, 7) = OK P2C) by (vm_compute; reflexivity).
  split; [|split; [|split]].
  - intros H. destruct (H 1 2 P2C H12) as [_ H']. rewrite H21 in H'. discriminate.
  - intros H. specialize (H 3 4 H34). rewrite H43 in H. discriminate.
  - exact H77.
  - rewrite G77. discriminate.
Qed.

(** C3.  When a pair is a key in neither order, the strict lookup raises
    [KeyError] with a message that names the queried pair in the order it
    was asked, and [get] returns the caller's default; [get] returns a
    value for every table, pair of integers and default. *)
Theorem lookup_miss {A} self a b (missing : A) :
  (pair2rel self !! (a, b) = None -> pair2rel self !! (b, a) = None ->
   __getitem__ self (a, b) =
     Raise (KeyError ("unknown relationship " ++ Py.fmt_d a ++ "-" ++ Py.fmt_d b)) /\
   get self (a, b) missing = OK (inr missing)) /\
  (exists v, get self (a, b) missing = OK v).
Proof.
  split.
  - intros Hab Hba. unfold get, __getitem__. rewrite Hab. cbn [fst snd].
    rewrite Hba. split; reflexivity.
  - unfold get, __getitem__.
    destruct (pair2rel self !! (a, b)) as [r|]; [eexists; reflexivity|].
    cbn [fst snd]. destruct (pair2rel self !! (b, a)); eexists; reflexivity.
Qed.

Lemma lookup_miss_witness :
  __getitem__ short_db (999999, 999998) =
    Raise (KeyError "unknown relationship 999999-999998") /\
  get short_db (999999, 999998) (@None Z) = OK (inr None).
Proof.
  apply (proj1 (lookup_miss short_db 999999 999998 (@None Z))); vm_compute; reflexivity.
Defined.

(** ** Loading *)

Lemma effect_codes_valid line self self' :
  codes_valid self -> line_effect line self self' -> codes_valid self'.
Proof.
  intros Hv H. destruct H; try exact Hv.
  intros pair r. cbn [pair2rel set_pair2rel]. rewrite lookup_insert.
  case_decide as Hk.
  - intros Heq. inversion Heq; subst. assumption.
  - apply Hv.
Qed.

Lemma new_db_codes_valid : codes_valid new_db.
Proof. intros pair r. cbn. rewrite lookup_empty. discriminate. Qed.

Lemma parse_relationship_codes_valid line self self' b :
  codes_valid self -> _parse_relationship line self = OK (b, self') ->
  codes_valid self'.
Proof.
  intros Hv. unfold_M.
  destruct (_relationship_regexp line) as [[[g1 g2] g3]|].
  - destruct (Py.int g1) as [?|as1]; [discriminate|].
    destruct (Py.int g2) as [?|as2]; [discriminate|].
    destruct (Py.int g3) as [?|rel]; [discriminate|].
    case_bool_decide as Hrel; [|discriminate].
    intros H. inversion H; subst. intros pair r.
    cbn [pair2rel set_pair2rel]. rewrite lookup_insert. case_decide.
    + intros Heq. inversion Heq; subst. unfold _relationship_valid in Hrel. set_solver.
    + apply Hv.
  - intros H. inversion H; subst. exact Hv.
Qed.

(** A matched relationship line whose code does not convert to [-1] or [0]
    raises. *)
Lemma bad_code_fatal raw g1 g2 g3 :
  _relationship_regexp (Py.strip raw) = Some (g1, g2, g3) ->
  Py.int g3 <> OK P2C -> Py.int g3 <> OK P2P -> fatal raw.
Proof.
  intros Hre Hc Hp. apply not_effect_fatal. intros self self' H.
  destruct (relationship_line_reaches _ _ _ _ Hre) as (Hs & Hcl & Hix).
  inversion H; subst; try congruence.
  match goal with
  | Hm : _relationship_regexp _ = Some (?a, ?b, ?c) |- _ =>
      rewrite Hre in Hm; inversion Hm; subst
  end.
  match goal with
  | Hor : _ = P2C \/ _ = P2P |- _ => destruct Hor; subst; congruence
  end.
Qed.

(** C4.  Every code in [pair2rel] is [-1] or [0]: one call of
    [_parse_relationship] that returns keeps it so, hence so does the loop
    after any number of lines, and the table that the constructor returns
    stores no [+1].  A relationship line whose code field does not convert
    to [-1] or [0] makes the constructor raise. *)
Theorem stored_codes_valid (fd : list string) :
  (forall line self self' b,
     codes_valid self -> _parse_relationship line self = OK (b, self') ->
     codes_valid self') /\
  (forall self, for_each fd new_db = OK (tt, self) -> codes_valid self) /\
  (forall self, __init__ fd = OK self ->
     codes_valid self /\ forall pair, pair2rel self !! pair <> Some C2P) /\
  (forall raw g1 g2 g3,
     In raw fd -> _relationship_regexp (Py.strip raw) = Some (g1, g2, g3) ->
     Py.int g3 <> OK P2C -> Py.int g3 <> OK P2P ->
     fatal raw /\ exists e, __init__ fd = Raise e).
Proof.
  assert (Hloop : forall self, for_each fd new_db = OK (tt, self) -> codes_valid self).
  { intros self. apply (for_each_invariant codes_valid); [|exact new_db_codes_valid].
    intros line s s'. apply effect_codes_valid. }
  split; [|split; [|split]].
  - intros line self self' b. apply parse_relationship_codes_valid.
  - exact Hloop.
  - intros self H. apply init_OK in H as [H _]. specialize (Hloop self H).
    split; [exact Hloop|]. intros pair Hp. destruct (Hloop pair C2P Hp); discriminate.
  - intros raw g1 g2 g3 Hin Hre Hc Hp.
    assert (Hf : fatal raw) by (eapply bad_code_fatal; eassumption).
    split; [exact Hf | now apply (init_fatal raw)].
Qed.

Lemma stored_codes_valid_witness :
  codes_valid short_db /\
  (fatal "1|2|2" /\ exists e, __init__ ["# a comment"; "1|2|2"] = Raise e).
Proof.
  split.
  - apply (proj1 (proj2 (stored_codes_valid short_feed))). exact short_loop.
  - apply (proj2 (proj2 (proj2 (stored_codes_valid ["# a comment"; "1|2|2"])))
             "1|2|2" "1" "2" "2").
    + simpl. auto.
    + vm_compute. reflexivity.
    + vm_compute. discriminate.
    + vm_compute. discriminate.
Defined.

(** C5.  The constructor returns exactly when the loop returns and the
    four conditions hold: the provenance set, the clique set and the
    exchange-point set are not empty and [pair2rel] has more than 1000
    entries.  It then returns the object that the loop left, and when the
    loop returns and a condition fails it raises [AssertionError]. *)
Theorem post_load_check (fd : list string) :
  (forall self, __init__ fd = OK self ->
     for_each fd new_db = OK (tt, self) /\
     sources self <> ∅ /\ clique self <> ∅ /\ ixps self <> ∅ /\
     (1000 < size (pair2rel self))%nat) /\
  (forall self, for_each fd new_db = OK (tt, self) ->
     sources self <> ∅ -> clique self <> ∅ -> ixps self <> ∅ ->
     (1000 < size (pair2rel self))%nat ->
     __init__ fd = OK self) /\
  (forall self, for_each fd new_db = OK (tt, self) ->
     ~ (sources self <> ∅ /\ clique self <> ∅ /\ ixps self <> ∅ /\
        (1000 < size (pair2rel self))%nat) ->
     __init__ fd = Raise AssertionError).
Proof.
  split; [|split].
  - intros self H. now apply init_OK in H.
  - intros self H Hs Hc Hi Hn. apply init_OK. unfold loaded. auto.
  - intros self H Hnot. now apply (init_not_loaded fd self).
Qed.

Lemma post_load_check_witness :
  (sources sample_db <> ∅ /\ clique sample_db <> ∅ /\ ixps sample_db <> ∅ /\
   (1000 < size (pair2rel sample_db))%nat) /\
  __init__ short_feed = Raise AssertionError.
Proof.
  split.
  - apply (proj1 (post_load_check sample_feed) sample_db). exact sample_loads.
  - apply (proj2 (proj2 (post_load_check short_feed)) short_db).
    + exact short_loop.
    + intros (_ & _ & _ & Hn). rewrite short_db_size in Hn. lia.
Defined.

(** C6.  A line that is, once trimmed, three fields between two pipes (two
    runs of digits and a run of digits and minus signs whose value is [-1]
    or [0]) makes the loop body store the code under the pair (first field,
    second field) in the order read: that key now maps to the code,
    whatever it mapped to before, every other key (the reversed pair
    among them) maps to what it did, and the three sets are untouched. *)
Theorem relationship_line_stored raw g1 g2 g3 as1 as2 rel self :
  Py.strip raw = g1 ++ "|" ++ g2 ++ "|" ++ g3 ->
  run isdigit g1 -> run isdigit g2 -> run Re.digit_or_minus g3 ->
  Py.int g1 = OK as1 -> Py.int g2 = OK as2 -> Py.int g3 = OK rel ->
  rel = P2C \/ rel = P2P ->
  exists self',
    process_line raw self = OK (tt, self') /\
    pair2rel self' = <[(as1, as2) := rel]> (pair2rel self) /\
    pair2rel self' !! (as1, as2) = Some rel /\
    (forall pair, pair <> (as1, as2) -> pair2rel self' !! pair = pair2rel self !! pair) /\
    (as1 <> as2 -> pair2rel self' !! (as2, as1) = pair2rel self !! (as2, as1)) /\
    sources self' = sources self /\ clique self' = clique self /\
    ixps self' = ixps self.
Proof.
  intros Hline H1 H2 H3 Hi1 Hi2 Hi3 Hrel.
  pose proof (relationship_regexp_fields g1 g2 g3 H1 H2 H3) as Hre.
  rewrite <- Hline in Hre.
  destruct (relationship_line_reaches _ _ _ _ Hre) as (Hs & Hc & Hx).
  exists (set_pair2rel (<[(as1, as2) := rel]> (pair2rel self)) self).
  split.
  { apply process_line_effect.
    now apply (effect_relationship _ _ g1 g2 g3 as1 as2 rel). }
  cbn [pair2rel sources clique ixps set_pair2rel].
  repeat split.
  - apply lookup_insert_eq.
  - intros pair Hne. now apply lookup_insert_ne.
  - intros Hne. apply lookup_insert_ne. congruence.
Qed.

Lemma relationship_line_stored_witness :
  exists self',
    process_line ("5|3|-1" ++ nl) short_db = OK (tt, self') /\
    pair2rel self' !! (5, 3) = Some P2C /\
    pair2rel self' !! (3, 5) = None /\
    pair2rel self' !! (2, 1) = Some P2C.
Proof.
  destruct (relationship_line_stored ("5|3|-1" ++ nl) "5" "3" "-1" 5 3 P2C short_db)
    as (self' & Hrun & _ & Hkey & _ & Hrev & _).
  - vm_compute. reflexivity.
  - split; [discriminate | reflexivity].
  - split; [discriminate | reflexivity].
  - split; [discriminate | reflexivity].
  - vm_compute. reflexivity.
  - vm_compute. reflexivity.
  - vm_compute. reflexivity.
  - left. reflexivity.
  - exists self'. split; [exact Hrun|]. split; [exact Hkey|]. split.
    + rewrite Hrev by lia. vm_compute. reflexivity.
    + destruct (relationship_line_stored ("5|3|-1" ++ nl) "5" "3" "-1" 5 3 P2C short_db)
        as (s2 & Hrun2 & _ & _ & Hother & _);
        [vm_compute; reflexivity | split; [discriminate | reflexivity]
        | split; [discriminate | reflexivity] | split; [discriminate | reflexivity]
        | vm_compute; reflexivity | vm_compute; reflexivity | vm_compute; reflexivity
        | left; reflexivity |].
      rewrite Hrun in Hrun2. inversion Hrun2; subst.
      rewrite Hother by congruence. vm_compute. reflexivity.
Defined.

(** ** The clique and the exchange points *)

Lemma effect_keeps_clique line self self' :
  Re.clique line = None -> line_effect line self self' -> clique self' = clique self.
Proof. intros Hn H. destruct H; try reflexivity. congruence. Qed.

Lemma effect_keeps_ixps line self self' :
  Re.ixps line = None -> line_effect line self self' -> ixps self' = ixps self.
Proof. intros Hn H. destruct H; try reflexivity. congruence. Qed.

Lemma for_each_keeps (f : ASRelationshipsDB -> gset Z) (re : string -> option string) :
  (forall line self self', re line = None -> line_effect line self self' -> f self' = f self) ->
  forall fd, (forall raw, In raw fd -> re (Py.strip raw) = None) ->
  forall self self', for_each fd self = OK (tt, self') -> f self' = f self.
Proof.
  intros Hstep. induction fd as [|raw fd IH]; simpl; intros Hnone self self' H.
  - inversion H; subst. reflexivity.
  - apply bind_OK in H as ([] & self1 & H1 & H2).
    rewrite (IH (fun r Hr => Hnone r (or_intror Hr)) self1 self' H2).
    apply (Hstep (Py.strip raw)); [apply Hnone; now left|].
    now apply process_line_effect.
Qed.

Lemma clique_line_effect raw g self self' :
  Re.clique (Py.strip raw) = Some g -> process_line raw self = OK (tt, self') ->
  exists s, int_set (Py.split g) = OK s /\ self' = set_clique s self.
Proof.
  intros Hg H. apply process_line_effect in H.
  pose proof (clique_line_reaches _ _ Hg) as Hs.
  inversion H; subst; try congruence.
  match goal with
  | Hm : Re.clique _ = Some ?x |- _ => rewrite Hg in Hm; inversion Hm; subst
  end.
  eexists; split; [eassumption | reflexivity].
Qed.

Lemma ixps_line_effect raw g self self' :
  Re.ixps (Py.strip raw) = Some g -> process_line raw self = OK (tt, self') ->
  exists s, int_set (Py.split g) = OK s /\ self' = set_ixps s self.
Proof.
  intros Hg H. apply process_line_effect in H.
  destruct (ixps_line_reaches _ _ Hg) as [Hs Hc].
  inversion H; subst; try congruence.
  match goal with
  | Hm : Re.ixps _ = Some ?x |- _ => rewrite Hg in Hm; inversion Hm; subst
  end.
  eexists; split; [eassumption | reflexivity].
Qed.

(** C7.  A clique line sets the clique to exactly the integers listed on
    it, whatever the set held before, and an exchange-point line does the
    same for the exchange points; so when the loop returns, each set holds
    the integers of the last such line of the feed. *)
Theorem clique_and_ixps_replaced :
  (forall raw g self,
     Re.clique (Py.strip raw) = Some g ->
     exists s,
       int_set (Py.split g) = OK s /\
       process_line raw self = OK (tt, set_clique s self) /\
       (forall z, z ∈ s <-> exists t, In t (Py.split g) /\ Py.int t = OK z)) /\
  (forall raw g self,
     Re.ixps (Py.strip raw) = Some g ->
     exists s,
       int_set (Py.split g) = OK s /\
       process_line raw self = OK (tt, set_ixps s self) /\
       (forall z, z ∈ s <-> exists t, In t (Py.split g) /\ Py.int t = OK z)) /\
  (forall pre raw post g s self0 self,
     for_each (pre ++ raw :: post) self0 = OK (tt, self) ->
     Re.clique (Py.strip raw) = Some g ->
     int_set (Py.split g) = OK s ->
     (forall r, In r post -> Re.clique (Py.strip r) = None) ->
     clique self = s) /\
  (forall pre raw post g s self0 self,
     for_each (pre ++ raw :: post) self0 = OK (tt, self) ->
     Re.ixps (Py.strip raw) = Some g ->
     int_set (Py.split g) = OK s ->
     (forall r, In r post -> Re.ixps (Py.strip r) = None) ->
     ixps self = s).
Proof.
  split; [|split; [|split]].
  - intros raw g self Hg.
    destruct (int_list_converts _ _ _ Hg) as [s Hs]. exists s.
    split; [exact Hs|]. split; [|now apply int_set_spec].
    apply process_line_effect.
    apply (effect_clique _ _ g s); [now apply (clique_line_reaches _ g) | exact Hg | exact Hs].
  - intros raw g self Hg.
    destruct (int_list_converts _ _ _ Hg) as [s Hs]. exists s.
    split; [exact Hs|]. split; [|now apply int_set_spec].
    destruct (ixps_line_reaches _ _ Hg) as [Hsrc Hcl].
    apply process_line_effect. now apply (effect_ixps _ _ g s).
  - intros pre raw post g s self0 self H Hg Hs Hpost.
    rewrite for_each_app in H.
    destruct (for_each pre self0) as [e|[[] self1]]; [discriminate|].
    simpl in H. apply bind_OK in H as ([] & self2 & H1 & H2).
    destruct (clique_line_effect _ _ _ _ Hg H1) as (s' & Hs' & ->).
    rewrite (for_each_keeps clique Re.clique effect_keeps_clique post Hpost _ _ H2).
    unfold OK in *. cbn. congruence.
  - intros pre raw post g s self0 self H Hg Hs Hpost.
    rewrite for_each_app in H.
    destruct (for_each pre self0) as [e|[[] self1]]; [discriminate|].
    simpl in H. apply bind_OK in H as ([] & self2 & H1 & H2).
    destruct (ixps_line_effect _ _ _ _ Hg H1) as (s' & Hs' & ->).
    rewrite (for_each_keeps ixps Re.ixps effect_keeps_ixps post Hpost _ _ H2).
    unfold OK in *. cbn. congruence.
Qed.

Lemma clique_and_ixps_replaced_witness :
  (exists s, process_line ("# inferred clique: 3 5" ++ nl) short_db
             = OK (tt, set_clique s short_db) /\ 5 ∈ s /\ 174 ∉ s) /\
  (forall self,
     for_each (["# inferred clique: 1 2"; "# IXP ASes: 9"] ++
               "# inferred clique: 3 5" :: ["7|8|0"]) new_db = OK (tt, self) ->
     clique self = {[3; 5]}).
Proof.
  split.
  - destruct (proj1 clique_and_ixps_replaced ("# inferred clique: 3 5" ++ nl) "3 5" short_db)
      as (s & Hs & Hrun & Hmem); [vm_compute; reflexivity|].
    exists s. split; [exact Hrun|]. split.
    + apply Hmem. exists "5". split; [vm_compute; auto | vm_compute; reflexivity].
    + intros Hin. apply Hmem in Hin as (t & Ht & Hv). vm_compute in Ht.
      destruct Ht as [<-|[<-|[]]]; vm_compute in Hv; discriminate.
  - intros self H.
    apply (proj1 (proj2 (proj2 clique_and_ixps_replaced))
             ["# inferred clique: 1 2"; "# IXP ASes: 9"] "# inferred clique: 3 5"
             ["7|8|0"] "3 5" {[3; 5]} new_db self H).
    + vm_compute. reflexivity.
    + vm_compute. reflexivity.
    + intros r [<-|[]]. vm_compute. reflexivity.
Defined.

(** ** Provenance, comments and blank lines *)

(** C8.  For a line that matches the provenance pattern with five fields:
    when the first field is [topology], the second is [BGP] and the third
    converts to a positive integer, the loop body adds the record to the
    provenance set and changes nothing else; otherwise the line raises,
    and so does the constructor on every feed that contains it. *)
Theorem provenance_validated raw g f1 f2 f3 f4 f5 self :
  Re.source (Py.strip raw) = Some g ->
  Py.split_on "|" g = [f1; f2; f3; f4; f5] ->
  ((f1 = "topology" /\ f2 = "BGP" /\ exists d, Py.int f3 = OK d /\ 0 < d) ->
   process_line raw self =
     OK (tt, set_sources ({[mkDataSource f1 f2 f3 f4 f5]} ∪ sources self) self) /\
   mkDataSource f1 f2 f3 f4 f5 ∈
     sources (set_sources ({[mkDataSource f1 f2 f3 f4 f5]} ∪ sources self) self)) /\
  (~ (f1 = "topology" /\ f2 = "BGP" /\ exists d, Py.int f3 = OK d /\ 0 < d) ->
   fatal raw /\ forall fd, In raw fd -> exists e, __init__ fd = Raise e).
Proof.
  intros Hg Hf. split.
  - intros (H1 & H2 & d & Hd & Hpos). split.
    + apply process_line_effect.
      apply (effect_source _ _ g (mkDataSource f1 f2 f3 f4 f5) d); auto.
      now rewrite Hf.
    + cbn. set_solver.
  - intros Hnot.
    assert (Hfatal : fatal raw).
    { apply not_effect_fatal. intros s s' H. apply Hnot.
      inversion H; subst; try congruence.
      match goal with
      | Hm : Re.source _ = Some ?x |- _ => rewrite Hg in Hm; inversion Hm; subst
      end.
      match goal with
      | Hn : DataSource_new _ = OK ?src |- _ =>
          rewrite Hf in Hn; cbn in Hn; inversion Hn; subst
      end.
      cbn in *. eauto 6. }
    split; [exact Hfatal|]. intros fd Hin. now apply (init_fatal raw).
Qed.

Lemma provenance_validated_witness :
  (process_line ("# source:topology|BGP|20130801|ripe|rrc00" ++ nl) new_db =
     OK (tt, set_sources ({[mkDataSource "topology" "BGP" "20130801" "ripe" "rrc00"]}
                            ∪ sources new_db) new_db)) /\
  fatal "# source:topology|OSPF|20130801|ripe|rrc00" /\
  fatal "# source:topology|BGP|0|ripe|rrc00".
Proof.
  split; [|split].
  - apply (proj1 (provenance_validated
             ("# source:topology|BGP|20130801|ripe|rrc00" ++ nl)
             "topology|BGP|20130801|ripe|rrc00"
             "topology" "BGP" "20130801" "ripe" "rrc00" new_db
             ltac:(vm_compute; reflexivity) ltac:(vm_compute; reflexivity))).
    split; [reflexivity|]. split; [reflexivity|].
    exists 20130801. split; [vm_compute; reflexivity | lia].
  - apply (proj2 (provenance_validated
             "# source:topology|OSPF|20130801|ripe|rrc00"
             "topology|OSPF|20130801|ripe|rrc00"
             "topology" "OSPF" "20130801" "ripe" "rrc00" new_db
             ltac:(vm_compute; reflexivity) ltac:(vm_compute; reflexivity))).
    intros (_ & H & _). discriminate.
  - apply (proj2 (provenance_validated
             "# source:topology|BGP|0|ripe|rrc00"
             "topology|BGP|0|ripe|rrc00"
             "topology" "BGP" "0" "ripe" "rrc00" new_db
             ltac:(vm_compute; reflexivity) ltac:(vm_compute; reflexivity))).
    intros (_ & _ & d & Hd & Hpos). vm_compute in Hd. inversion Hd; subst. lia.
Defined.

(** C9.  For a line that matches none of the four patterns: when its
    first byte is [#] the loop body returns and leaves the object as it
    was; when the line is not empty and its first byte is not [#] the loop
    body raises [AssertionError]; and whenever the line does not start
    with [#] it raises, and so does the constructor on every feed that
    contains it. *)
Theorem comment_fallback raw self :
  Re.source (Py.strip raw) = None ->
  Re.clique (Py.strip raw) = None ->
  Re.ixps (Py.strip raw) = None ->
  _relationship_regexp (Py.strip raw) = None ->
  (forall rest, Py.strip raw = String "#" rest -> process_line raw self = OK (tt, self)) /\
  (forall c rest, Py.strip raw = String c rest -> c <> "#"%char ->
     process_line raw self = Raise AssertionError) /\
  ((forall rest, Py.strip raw <> String "#" rest) ->
     fatal raw /\ forall fd, In raw fd -> exists e, __init__ fd = Raise e).
Proof.
  intros Hs Hc Hx Hr. split; [|split].
  - intros rest Hline. apply process_line_effect. now apply (effect_comment _ _ rest).
  - intros c rest Hline Hne. unfold process_line. unfold_M.
    rewrite Hs, Hc, Hx, Hr, Hline. cbn.
    destruct (Ascii.eqb_spec c "#"); [contradiction | reflexivity].
  - intros Hnot.
    assert (Hfatal : fatal raw).
    { apply not_effect_fatal. intros s s' H.
      inversion H; subst; try congruence; eapply Hnot; eassumption. }
    split; [exact Hfatal|]. intros fd Hin. now apply (init_fatal raw).
Qed.

Lemma comment_fallback_witness :
  process_line ("# serial-1" ++ nl) short_db = OK (tt, short_db) /\
  process_line ("1|2" ++ nl) short_db = Raise AssertionError /\
  fatal ("1|2" ++ nl).
Proof.
  split; [|split].
  - apply (proj1 (comment_fallback ("# serial-1" ++ nl) short_db
             ltac:(vm_compute; reflexivity) ltac:(vm_compute; reflexivity)
             ltac:(vm_compute; reflexivity) ltac:(vm_compute; reflexivity))
             " serial-1").
    vm_compute. reflexivity.
  - apply (proj1 (proj2 (comment_fallback ("1|2" ++ nl) short_db
             ltac:(vm_compute; reflexivity) ltac:(vm_compute; reflexivity)
             ltac:(vm_compute; reflexivity) ltac:(vm_compute; reflexivity)))
             "1"%char "|2").
    + vm_compute. reflexivity.
    + discriminate.
  - apply (proj2 (proj2 (comment_fallback ("1|2" ++ nl) short_db
             ltac:(vm_compute; reflexivity) ltac:(vm_compute; reflexivity)
             ltac:(vm_compute; reflexivity) ltac:(vm_compute; reflexivity)))).
    intros rest H. vm_compute in H. discriminate.
Defined.

(** C10.  A line made of whitespace only is empty once trimmed, matches
    none of the four patterns, and makes the loop body raise [IndexError]
    (the read of the first byte fails before the assertion is evaluated);
    the constructor raises [IndexError] when the lines before it were read
    without an exception, and raises on every feed that contains such a
    line. *)
Theorem blank_line_index_error raw :
  all_bytes isspace raw = true ->
  Py.strip raw = EmptyString /\
  Re.source (Py.strip raw) = None /\ Re.clique (Py.strip raw) = None /\
  Re.ixps (Py.strip raw) = None /\ _relationship_regexp (Py.strip raw) = None /\
  (forall self, process_line raw self = Raise IndexError) /\
  (forall pre post self1,
     for_each pre new_db = OK (tt, self1) ->
     __init__ (pre ++ raw :: post) = Raise IndexError) /\
  (forall fd, In raw fd -> exists e, __init__ fd = Raise e).
Proof.
  intros Hblank. pose proof (strip_blank raw Hblank) as Hstrip.
  assert (Hrun : forall self, process_line raw self = Raise IndexError).
  { intros self. unfold process_line. rewrite Hstrip. reflexivity. }
  rewrite Hstrip. repeat split; try reflexivity.
  - exact Hrun.
  - intros pre post self1 Hpre. apply (init_raises_at pre raw post self1); auto.
  - intros fd Hin. apply (init_fatal raw); [exact Hin|].
    intros self. exists IndexError. apply Hrun.
Qed.

Lemma blank_line_index_error_witness :
  process_line nl short_db = Raise IndexError /\
  __init__ (short_feed ++ (String " " nl) :: sample_feed) = Raise IndexError.
Proof.
  split.
  - apply (proj1 (proj2 (proj2 (proj2 (proj2 (proj2
             (blank_line_index_error nl eq_refl))))))).
  - apply (proj1 (proj2 (proj2 (proj2 (proj2 (proj2 (proj2
             (blank_line_index_error (String " " nl) eq_refl)))))))
             short_feed sample_feed short_db).
    exact short_loop.
Defined.

(** * Further properties of the loader and of the lookup *)

(** ** The cascade *)

Lemma source_line_inv line g : Re.source line = Some g -> exists rest, line = "# source:" ++ rest.
Proof.
  unfold Re.source. intros H.
  destruct (Re.literal "# source:" line) as [rest|] eqn:Hl; [|discriminate].
  exists rest. now apply literal_Some.
Qed.

(** A line matches at most one of the four patterns, so the order in which
    [__init__] tries them never decides what a line does. *)
Theorem patterns_exclusive line :
  (is_Some (Re.source line) ->
   Re.clique line = None /\ Re.ixps line = None /\ _relationship_regexp line = None) /\
  (is_Some (Re.clique line) ->
   Re.source line = None /\ Re.ixps line = None /\ _relationship_regexp line = None) /\
  (is_Some (Re.ixps line) ->
   Re.source line = None /\ Re.clique line = None /\ _relationship_regexp line = None) /\
  (is_Some (_relationship_regexp line) ->
   Re.source line = None /\ Re.clique line = None /\ Re.ixps line = None).
Proof.
  split; [|split; [|split]].
  - intros [g Hg]. apply source_line_inv in Hg as [rest ->]. repeat split; reflexivity.
  - intros [g Hg]. apply int_list_inv in Hg as [-> _]. repeat split; reflexivity.
  - intros [g Hg]. apply int_list_inv in Hg as [-> _]. repeat split; reflexivity.
  - intros [[[g1 g2] g3] Hg]. now apply (relationship_line_reaches line g1 g2 g3).
Qed.

Lemma patterns_exclusive_witness :
  Re.source "# IXP ASes: 1200 4635" = None /\
  Re.clique "# IXP ASes: 1200 4635" = None /\
  _relationship_regexp "# IXP ASes: 1200 4635" = None.
Proof.
  apply (proj1 (proj2 (proj2 (patterns_exclusive "# IXP ASes: 1200 4635")))).
  exists "1200 4635". vm_compute. reflexivity.
Defined.

(** ** Trimming *)

Lemma lstrip_pad ws s : all_bytes isspace ws = true -> lstrip (ws ++ s) = lstrip s.
Proof.
  induction ws as [|c ws IH]; simpl; [reflexivity|].
  intros H. apply andb_true_iff in H as [Hc Hws]. now rewrite Hc, IH.
Qed.

Lemma rstrip_blank ws : all_bytes isspace ws = true -> rstrip ws = EmptyString.
Proof.
  induction ws as [|c ws IH]; simpl; [reflexivity|].
  intros H. apply andb_true_iff in H as [Hc Hws]. now rewrite (IH Hws), Hc.
Qed.

Lemma rstrip_pad s ws : all_bytes isspace ws = true -> rstrip (s ++ ws) = rstrip s.
Proof.
  intros Hws. induction s as [|c s IH]; simpl; [now apply rstrip_blank|].
  now rewrite IH.
Qed.

Lemma strip_pad ws1 s ws2 :
  all_bytes isspace ws1 = true -> all_bytes isspace ws2 = true ->
  strip (ws1 ++ s ++ ws2) = strip s.
Proof.
  intros H1 H2. unfold strip. rewrite (lstrip_pad _ _ H1).
  induction s as [|c s IH]; simpl.
  - now rewrite (lstrip_blank _ H2).
  - destruct (isspace c); [exact IH|].
    change (String c (s ++ ws2)) with (String c s ++ ws2).
    now apply rstrip_pad.
Qed.

Lemma strip_empty_blank s : strip s = EmptyString -> all_bytes isspace s = true.
Proof.
  unfold strip. induction s as [|c s IH]; simpl; [reflexivity|].
  destruct (isspace c) eqn:Hc; [exact IH|].
  simpl. rewrite Hc. destruct (rstrip s); discriminate.
Qed.

(** Whitespace around a line (indentation, trailing blanks, a carriage
    return before the newline) never changes what the line does. *)
Theorem surrounding_whitespace_ignored ws1 raw ws2 self :
  all_bytes isspace ws1 = true -> all_bytes isspace ws2 = true ->
  process_line (ws1 ++ raw ++ ws2) self = process_line raw self.
Proof.
  intros H1 H2. unfold process_line.
  rewrite (strip_pad ws1 raw ws2 H1 H2). reflexivity.
Qed.

Lemma surrounding_whitespace_ignored_witness :
  process_line ("  " ++ "1|2|-1" ++ String "013" nl) new_db = process_line "1|2|-1" new_db.
Proof.
  apply (surrounding_whitespace_ignored "  " "1|2|-1" (String "013" nl) new_db);
    reflexivity.
Defined.


(** ** Which exception *)

Lemma length_split_on sep s : length (Py.split_on sep s) = S (count_byte sep s).
Proof.
  induction s as [|c s IH]; simpl; [reflexivity|].
  destruct (Ascii.eqb c sep); simpl; [now rewrite IH|].
  destruct (split_on sep s) as [|t ts]; [discriminate|]. simpl in *. lia.
Qed.

Lemma DataSource_new_OK fields src :
  DataSource_new fields = OK src -> length fields = 5%nat.
Proof.
  unfold DataSource_new, OK, Raise.
  destruct fields as [|a [|b [|c [|d [|e [|f fs]]]]]]; intros H; try discriminate.
  reflexivity.
Qed.

Lemma DataSource_new_Raise fields e :
  DataSource_new fields = Raise e -> e = TypeError /\ length fields <> 5%nat.
Proof.
  unfold DataSource_new, OK, Raise.
  destruct fields as [|a [|b [|c [|d [|e' [|f fs]]]]]]; intros H; try discriminate;
    inversion H; split; try reflexivity; simpl; lia.
Qed.

Lemma DataSource_new_length fields :
  length fields <> 5%nat -> DataSource_new fields = Raise TypeError.
Proof.
  destruct fields as [|a [|b [|c [|d [|e' [|f fs]]]]]]; simpl; intros H;
    try reflexivity. lia.
Qed.

Lemma int_Raise s e : Py.int s = Raise e -> e = ValueError.
Proof.
  unfold Py.int, OK, Raise.
  match goal with |- context [match ?v with Some _ => _ | None => _ end] => destruct v end;
    intros H; [discriminate | now inversion H].
Qed.

(** The loop body raises exactly along one of the nine ways of
    [line_raises]. *)
Lemma process_line_raises_iff raw self e :
  process_line raw self = Raise e <-> line_raises (Py.strip raw) e.
Proof.
  unfold process_line. generalize (Py.strip raw) as line. intros line. split.
  - unfold_M. intros H.
    destruct (Re.source line) as [g|] eqn:Hsrc.
    { destruct (DataSource_new (split_on "|" g)) as [e'|src] eqn:Hnew.
      { apply DataSource_new_Raise in Hnew as [-> Hlen]. inversion H; subst.
        now apply (raises_arity _ g). }
      destruct (String.eqb_spec (dtype src) "topology") as [Hd|Hd];
        [|inversion H; subst; now apply (raises_dtype _ g src)].
      destruct (String.eqb_spec (proto src) "BGP") as [Hp|Hp];
        [|inversion H; subst; now apply (raises_proto _ g src)].
      destruct (Py.int (date src)) as [e'|d] eqn:Hdate.
      { pose proof (int_Raise _ _ Hdate) as ->. inversion H; subst.
        now apply (raises_date _ g src). }
      destruct (Z.ltb_spec 0 d) as [Hpos|Hpos]; [discriminate|].
      inversion H; subst. now apply (raises_date_sign _ g src d). }
    destruct (Re.clique line) as [g|] eqn:Hcl.
    { destruct (int_list_converts _ _ _ Hcl) as [s Hs]. unfold OK in Hs.
      rewrite Hs in H. discriminate. }
    destruct (Re.ixps line) as [g|] eqn:Hix.
    { destruct (int_list_converts _ _ _ Hix) as [s Hs]. unfold OK in Hs.
      rewrite Hs in H. discriminate. }
    destruct (_relationship_regexp line) as [[[g1 g2] g3]|] eqn:Hrel.
    { destruct (relationship_regexp_inv _ _ _ _ Hrel) as (R1 & R2 & _).
      destruct (int_digits _ R1) as (as1 & H1 & _).
      destruct (int_digits _ R2) as (as2 & H2 & _).
      unfold OK in H1, H2. rewrite H1, H2 in H.
      destruct (Py.int g3) as [e'|rel] eqn:H3.
      { pose proof (int_Raise _ _ H3) as ->. inversion H; subst.
        now apply (raises_code _ g1 g2 g3). }
      case_bool_decide as Hv; [discriminate|].
      inversion H; subst.
      apply (raises_code_value _ g1 g2 g3 rel); auto;
        intros ->; apply Hv; unfold _relationship_valid; set_solver. }
    destruct line as [|c rest]; simpl in H.
    { inversion H; subst. now apply raises_empty. }
    destruct (Ascii.eqb_spec c "#") as [->|Hc]; [discriminate|].
    inversion H; subst. now apply (raises_unmatched _ c rest).
  - intros H. unfold_M. destruct H as
      [g Hsrc Hlen
      |g src Hsrc Hnew Hd
      |g src Hsrc Hnew Hd Hp
      |g src Hsrc Hnew Hd Hp Hdate
      |g src d Hsrc Hnew Hd Hp Hdate Hpos
      |g1 g2 g3 Hrel H3
      |g1 g2 g3 rel Hrel H3 Hc Hp
      | ->
      |c rest Hsrc Hcl Hix Hrel -> Hc].
    + rewrite Hsrc. now rewrite (DataSource_new_length _ Hlen).
    + rewrite Hsrc. unfold OK in Hnew. rewrite Hnew.
      destruct (String.eqb_spec (dtype src) "topology"); [contradiction | reflexivity].
    + rewrite Hsrc. unfold OK in Hnew. rewrite Hnew, Hd. simpl.
      destruct (String.eqb_spec (proto src) "BGP"); [contradiction | reflexivity].
    + rewrite Hsrc. unfold OK, Raise in Hnew, Hdate. rewrite Hnew, Hd, Hp, Hdate.
      reflexivity.
    + rewrite Hsrc. unfold OK in Hnew, Hdate. rewrite Hnew, Hd, Hp, Hdate. simpl.
      destruct (Z.ltb_spec 0 d); [lia | reflexivity].
    + destruct (relationship_line_reaches _ _ _ _ Hrel) as (Hsrc & Hcl & Hix).
      destruct (relationship_regexp_inv _ _ _ _ Hrel) as (R1 & R2 & _).
      destruct (int_digits _ R1) as (as1 & H1 & _).
      destruct (int_digits _ R2) as (as2 & H2 & _).
      rewrite Hsrc, Hcl, Hix, Hrel. unfold OK, Raise in H1, H2, H3.
      rewrite H1, H2, H3. reflexivity.
    + destruct (relationship_line_reaches _ _ _ _ Hrel) as (Hsrc & Hcl & Hix).
      destruct (relationship_regexp_inv _ _ _ _ Hrel) as (R1 & R2 & _).
      destruct (int_digits _ R1) as (as1 & H1 & _).
      destruct (int_digits _ R2) as (as2 & H2 & _).
      rewrite Hsrc, Hcl, Hix, Hrel. unfold OK, Raise in H1, H2, H3.
      rewrite H1, H2, H3.
      rewrite bool_decide_eq_false_2; [reflexivity|].
      unfold _relationship_valid. intros Hin.
      apply elem_of_union in Hin as [Hin|Hin]; apply elem_of_singleton in Hin;
        contradiction.
    + reflexivity.
    + rewrite Hsrc, Hcl, Hix, Hrel. simpl.
      destruct (Ascii.eqb_spec c "#"); [contradiction | reflexivity].
Qed.





(** The loop body raises [IndexError] exactly on the lines that hold
    nothing but whitespace. *)
Theorem index_error_iff_blank raw self :
  process_line raw self = Raise IndexError <-> all_bytes isspace raw = true.
Proof.
  rewrite process_line_raises_iff. split.
  - intros H. inversion H; subst. now apply strip_empty_blank.
  - intros H. apply raises_empty. now apply strip_blank.
Qed.

Lemma index_error_iff_blank_witness :
  process_line (String "009" nl) new_db = Raise IndexError.
Proof.
  apply (proj2 (index_error_iff_blank (String "009" nl) new_db)). reflexivity.
Defined.

(** The loop body raises [TypeError] exactly on a provenance line whose
    group does not hold four [|], that is five fields. *)
Theorem type_error_iff_field_count raw self :
  process_line raw self = Raise TypeError <->
  exists g, Re.source (Py.strip raw) = Some g /\ count_byte "|" g <> 4%nat.
Proof.
  rewrite process_line_raises_iff. split.
  - intros H. inversion H; subst. exists g. split; [assumption|].
    rewrite length_split_on in *. lia.
  - intros (g & Hg & Hn). apply (raises_arity _ g); [exact Hg|].
    rewrite length_split_on. lia.
Qed.

Lemma type_error_iff_field_count_witness :
  process_line "# source:topology|BGP|20130801" new_db = Raise TypeError.
Proof.
  apply (proj2 (type_error_iff_field_count "# source:topology|BGP|20130801" new_db)).
  exists "topology|BGP|20130801". split; [reflexivity | vm_compute; lia].
Defined.

(** The loop body raises [ValueError] exactly when the date of a
    well-formed provenance line, or the code field of a relationship line,
    is not the text of an integer.  The AS numbers of a relationship line
    and the lists of the clique and of the exchange points always
    convert. *)
Theorem value_error_iff raw self :
  process_line raw self = Raise ValueError <->
  (exists g f4 f5 date,
     Re.source (Py.strip raw) = Some g /\
     Py.split_on "|" g = ["topology"; "BGP"; date; f4; f5] /\
     Py.int date = Raise ValueError) \/
  (exists g1 g2 g3,
     _relationship_regexp (Py.strip raw) = Some (g1, g2, g3) /\
     Py.int g3 = Raise ValueError).
Proof.
  rewrite process_line_raises_iff. split.
  - intros H. inversion H; subst.
    + left. unfold DataSource_new in *.
      destruct (split_on "|" g) as [|a [|b [|c [|d [|e' [|f fs]]]]]] eqn:Hsp;
        try discriminate.
      match goal with Hn : OK _ = OK src |- _ => inversion Hn; subst end.
      simpl in *. subst. exists g, d, e', c. auto.
    + right. eauto.
  - intros [(g & f4 & f5 & dt & Hg & Hsp & Hd)|(g1 & g2 & g3 & Hre & H3)].
    + apply (raises_date _ g (mkDataSource "topology" "BGP" dt f4 f5)); auto.
      rewrite Hsp. reflexivity.
    + now apply (raises_code _ g1 g2 g3).
Qed.

Lemma value_error_iff_witness :
  process_line "1|2|--" new_db = Raise ValueError.
Proof.
  apply (proj2 (value_error_iff "1|2|--" new_db)). right.
  exists "1", "2", "--". split; reflexivity.
Defined.

(** ** The lookup on a table that the loop built *)

Lemma for_each_codes_valid fd self :
  for_each fd new_db = OK (tt, self) -> codes_valid self.
Proof.
  apply (for_each_invariant codes_valid); [|exact new_db_codes_valid].
  intros line s s' Hv He. now apply (effect_codes_valid line s).
Qed.

(** Whatever the feed, a lookup that returns gives one of the three codes
    that [rel2str] names.  It gives [C2P] only by negation: the queried
    pair is not stored and the reversed pair is stored as [P2C]; so the
    lookup of an AS with itself never gives [C2P]. *)
Theorem lookup_codomain fd self pair r :
  for_each fd new_db = OK (tt, self) ->
  __getitem__ self pair = OK r ->
  (r = P2C \/ r = P2P \/ r = C2P) /\
  is_Some (rel2str !! r) /\
  (r = C2P ->
   pair2rel self !! pair = None /\
   pair2rel self !! (snd pair, fst pair) = Some P2C /\
   fst pair <> snd pair).
Proof.
  intros Hfe Hget. apply for_each_codes_valid in Hfe.
  unfold __getitem__, OK in Hget. cbn [fst snd] in Hget.
  destruct (pair2rel self !! pair) as [r1|] eqn:H1.
  - inversion Hget; subst.
    destruct (Hfe _ _ H1) as [-> | ->];
      (split; [auto | split; [eexists; reflexivity | discriminate]]).
  - destruct (pair2rel self !! (snd pair, fst pair)) as [r2|] eqn:H2; [|discriminate].
    inversion Hget; subst.
    destruct (Hfe _ _ H2) as [-> | ->].
    + split; [auto | split; [eexists; reflexivity|]].
      intros _. split; [reflexivity | split; [reflexivity|]].
      intros Heq. destruct pair as [a b]. cbn in *. subst. congruence.
    + split; [auto | split; [eexists; reflexivity | discriminate]].
Qed.

Lemma lookup_codomain_witness :
  (C2P = P2C \/ C2P = P2P \/ C2P = C2P) /\
  is_Some (rel2str !! C2P) /\
  (C2P = C2P ->
   pair2rel (set_pair2rel (<[(5, 6) := P2C]> ∅) new_db) !! (6, 5) = None /\
   pair2rel (set_pair2rel (<[(5, 6) := P2C]> ∅) new_db) !! (snd (6, 5), fst (6, 5))
   = Some P2C /\
   fst (6, 5) <> snd (6, 5)).
Proof.
  apply (lookup_codomain ["5|6|-1"] (set_pair2rel (<[(5, 6) := P2C]> ∅) new_db)
           (6, 5) C2P); vm_compute; reflexivity.
Defined.



(** A pair is unknown in one order exactly when it is unknown in the
    other: [KeyError] does not depend on the order of the query. *)
Theorem miss_symmetric self a b :
  (exists msg, __getitem__ self (a, b) = Raise (KeyError msg)) <->
  (exists msg, __getitem__ self (b, a) = Raise (KeyError msg)).
Proof.
  unfold __getitem__, OK, Raise. cbn [fst snd].
  destruct (pair2rel self !! (a, b)), (pair2rel self !! (b, a));
    split; intros [msg H]; try discriminate; eexists; reflexivity.
Qed.

Lemma miss_symmetric_witness :
  exists msg, __getitem__ short_db (9, 8) = Raise (KeyError msg).
Proof.
  apply (proj1 (miss_symmetric short_db 8 9)). eexists. vm_compute. reflexivity.
Defined.

(** The lookup is antisymmetric (the code of the reversed query is the
    negated code) on exactly the tables that store no pair in both orders
    with codes that are not each other's negation. *)
Theorem mirrored_iff_antisymmetric self :
  mirrored self <->
  (forall a b r, __getitem__ self (a, b) = OK r -> __getitem__ self (b, a) = OK (- r)).
Proof.
  unfold mirrored, __getitem__, OK. cbn [fst snd]. split.
  - intros Hm a b r H.
    destruct (pair2rel self !! (a, b)) as [r1|] eqn:H1.
    + inversion H; subst. destruct (Hm _ _ H1) as [H2|H2]; cbn [fst snd] in H2.
      * rewrite H2. f_equal; lia.
      * rewrite H2. reflexivity.
    + destruct (pair2rel self !! (b, a)) as [r2|] eqn:H2; [|discriminate].
      inversion H; subst. f_equal; lia.
  - intros Hanti [a b] r H1. cbn [fst snd].
    specialize (Hanti a b r). rewrite H1 in Hanti. specialize (Hanti eq_refl).
    destruct (pair2rel self !! (b, a)) as [r2|]; [|now left].
    right. inversion Hanti; subst. reflexivity.
Qed.

Lemma mirrored_iff_antisymmetric_witness :
  __getitem__ (set_pair2rel {[(5, 6) := P2C]} new_db) (6, 5) = OK (- P2C).
Proof.
  apply (proj1 (mirrored_iff_antisymmetric (set_pair2rel {[(5, 6) := P2C]} new_db))).
  - unfold mirrored. cbn [pair2rel set_pair2rel]. apply map_Forall_singleton.
    left. vm_compute. reflexivity.
  - vm_compute. reflexivity.
Defined.

(** ** From the feed to the lookup *)

Lemma OK_inj {A} (a b : A) : OK a = OK b -> a = b.
Proof. intros H. now inversion H. Qed.

(** What a relationship line does when the loop body returns on it. *)
Lemma relationship_line_effect raw g1 g2 g3 self self' :
  _relationship_regexp (Py.strip raw) = Some (g1, g2, g3) ->
  process_line raw self = OK (tt, self') ->
  exists as1 as2 rel,
    Py.int g1 = OK as1 /\ Py.int g2 = OK as2 /\ Py.int g3 = OK rel /\
    (rel = P2C \/ rel = P2P) /\
    self' = set_pair2rel (<[(as1, as2) := rel]> (pair2rel self)) self.
Proof.
  intros Hre H. apply process_line_effect in H.
  destruct (relationship_line_reaches _ _ _ _ Hre) as (Hs & Hc & Hi).
  inversion H; subst; try congruence.
  match goal with
  | Hm : _relationship_regexp _ = Some (?a, ?b, ?c) |- _ =>
      rewrite Hre in Hm; inversion Hm; subst
  end.
  eauto 10.
Qed.

(** Lines that are not a relationship line of a pair leave its entry as it
    is. *)
Lemma for_each_keeps_pair as1 as2 post : forall self self',
  (forall raw h1 h2 h3, In raw post ->
     _relationship_regexp (Py.strip raw) = Some (h1, h2, h3) ->
     ~ (Py.int h1 = OK as1 /\ Py.int h2 = OK as2)) ->
  for_each post self = OK (tt, self') ->
  pair2rel self' !! (as1, as2) = pair2rel self !! (as1, as2).
Proof.
  induction post as [|raw post IH]; simpl; intros self self' Hno H.
  - now inversion H.
  - apply bind_OK in H as ([] & self1 & H1 & H2).
    rewrite (IH self1 self' (fun r h1 h2 h3 Hin => Hno r h1 h2 h3 (or_intror Hin)) H2).
    apply process_line_effect in H1. destruct H1; try reflexivity.
    cbn [pair2rel set_pair2rel]. apply lookup_insert_ne.
    intros Heq. inversion Heq; subst.
    apply (Hno raw g1 g2 g3); [now left | assumption | now split].
Qed.

(** The last relationship line of a pair decides what the loaded table
    answers for it: when the loop returns, on a feed in which no later line
    lists the same pair in the same order, the pair is stored with the code
    of that line and the lookup returns it. *)
Theorem last_relationship_line_wins pre raw post g1 g2 g3 as1 as2 self self' :
  for_each (pre ++ raw :: post) self = OK (tt, self') ->
  _relationship_regexp (Py.strip raw) = Some (g1, g2, g3) ->
  Py.int g1 = OK as1 -> Py.int g2 = OK as2 ->
  (forall raw' h1 h2 h3, In raw' post ->
     _relationship_regexp (Py.strip raw') = Some (h1, h2, h3) ->
     ~ (Py.int h1 = OK as1 /\ Py.int h2 = OK as2)) ->
  exists rel,
    Py.int g3 = OK rel /\ (rel = P2C \/ rel = P2P) /\
    pair2rel self' !! (as1, as2) = Some rel /\
    __getitem__ self' (as1, as2) = OK rel.
Proof.
  intros Hfe Hre H1 H2 Hno. rewrite for_each_app in Hfe.
  destruct (for_each pre self) as [e|[[] self0]]; [discriminate|].
  simpl in Hfe. apply bind_OK in Hfe as ([] & self1 & Hraw & Hpost).
  destruct (relationship_line_effect _ _ _ _ _ _ Hre Hraw)
    as (a1 & a2 & rel & Ha1 & Ha2 & H3 & Hrel & ->).
  rewrite H1 in Ha1. rewrite H2 in Ha2.
  apply OK_inj in Ha1 as <-. apply OK_inj in Ha2 as <-.
  assert (Hstored : pair2rel self' !! (as1, as2) = Some rel).
  { rewrite (for_each_keeps_pair as1 as2 post _ _ Hno Hpost).
    cbn [pair2rel set_pair2rel]. apply lookup_insert_eq. }
  exists rel. split; [exact H3|]. split; [exact Hrel|].
  split; [exact Hstored|]. unfold __getitem__. now rewrite Hstored.
Qed.

Lemma last_relationship_line_wins_witness :
  exists rel,
    Py.int "-1" = OK rel /\ (rel = P2C \/ rel = P2P) /\
    pair2rel short_db !! (2, 1) = Some rel /\
    __getitem__ short_db (2, 1) = OK rel.
Proof.
  apply (last_relationship_line_wins
           (sample_header ++ [rel_line 1 2 P2C; rel_line 1 2 P2P])
           (rel_line 2 1 P2C) [rel_line 1 1614 P2P] "2" "1" "-1" 2 1 new_db short_db).
  - exact short_loop.
  - vm_compute. reflexivity.
  - vm_compute. reflexivity.
  - vm_compute. reflexivity.
  - intros raw' h1 h2 h3 [<-|[]] Hre [_ H2].
    vm_compute in Hre. inversion Hre; subst. vm_compute in H2. discriminate.
Defined.

(** The loop never takes a provenance record or a stored pair away: both
    only grow while the feed is read. *)
Theorem loop_only_adds fd self self' :
  for_each fd self = OK (tt, self') ->
  sources self ⊆ sources self' /\ dom (pair2rel self) ⊆ dom (pair2rel self').
Proof.
  apply (for_each_invariant
           (fun s => sources self ⊆ sources s /\ dom (pair2rel self) ⊆ dom (pair2rel s)));
    [|split; reflexivity].
  intros line s s' [Hs Hd] He. destruct He; cbn [sources pair2rel set_sources
    set_clique set_ixps set_pair2rel]; split; try assumption.
  - transitivity (sources s); [exact Hs | apply union_subseteq_r].
  - rewrite dom_insert.
    transitivity (dom (pair2rel s)); [exact Hd | apply union_subseteq_r].
Qed.

Lemma loop_only_adds_witness :
  sources new_db ⊆ sources short_db /\ dom (pair2rel new_db) ⊆ dom (pair2rel short_db).
Proof.
  apply (loop_only_adds short_feed new_db short_db). exact short_loop.
Defined.

(** Every provenance record of the table passed the three assertions of
    [_parse_source]. *)
Theorem sources_validated fd self src :
  for_each fd new_db = OK (tt, self) ->
  src ∈ sources self ->
  dtype src = "topology" /\ proto src = "BGP" /\
  exists d, Py.int (date src) = OK d /\ 0 < d.
Proof.
  intros Hfe. revert src.
  refine (for_each_invariant
            (fun s => forall src, src ∈ sources s ->
               dtype src = "topology" /\ proto src = "BGP" /\
               exists d, Py.int (date src) = OK d /\ 0 < d) _ fd new_db self _ Hfe).
  - intros line s s' Hs He. destruct He; cbn [sources set_sources set_clique
      set_ixps set_pair2rel]; try exact Hs.
    intros src' Hin. apply elem_of_union in Hin as [Hin|Hin]; [|now apply Hs].
    apply elem_of_singleton in Hin as ->. eauto.
  - intros src Hin. cbn in Hin. now apply not_elem_of_empty in Hin.
Qed.

Lemma sources_validated_witness :
  dtype (mkDataSource "topology" "BGP" "20130801" "routeviews" "route-views2")
  = "topology" /\
  proto (mkDataSource "topology" "BGP" "20130801" "routeviews" "route-views2")
  = "BGP" /\
  exists d,
    Py.int (date (mkDataSource "topology" "BGP" "20130801" "routeviews" "route-views2"))
    = OK d /\ 0 < d.
Proof.
  apply (sources_validated short_feed short_db); [exact short_loop|].
  vm_compute. reflexivity.
Defined.

(** ** How long a feed has to be *)

Lemma filled_le_1 {A} `{Countable A} (X : gset A) : (filled X <= 1)%nat.
Proof. unfold filled. destruct (decide (X = ∅)); lia. Qed.

Lemma filled_nonempty {A} `{Countable A} (X : gset A) : X <> ∅ -> filled X = 1%nat.
Proof. unfold filled. intros Hne. destruct (decide (X = ∅)); [contradiction | reflexivity]. Qed.

Lemma size_insert_le (m : gmap (Z * Z) Z) k v : (size (<[k := v]> m) <= S (size m))%nat.
Proof.
  rewrite map_size_insert. destruct (m !! k); unfold id; lia.
Qed.

(** One line adds at most one stored pair or fills at most one set. *)
Lemma effect_progress line self self' :
  line_effect line self self' -> (progress self' <= S (progress self))%nat.
Proof.
  intros H. unfold progress.
  destruct H; cbn [sources clique ixps pair2rel set_sources set_clique set_ixps
                   set_pair2rel].
  - pose proof (filled_le_1 ({[src]} ∪ sources self)). lia.
  - pose proof (filled_le_1 s). lia.
  - pose proof (filled_le_1 s). lia.
  - pose proof (size_insert_le (pair2rel self) (as1, as2) rel). lia.
  - lia.
Qed.

Lemma for_each_progress fd : forall self self',
  for_each fd self = OK (tt, self') ->
  (progress self' <= length fd + progress self)%nat.
Proof.
  induction fd as [|raw fd IH]; simpl; intros self self' H.
  - inversion H; subst. lia.
  - apply bind_OK in H as ([] & self1 & H1 & H2).
    apply process_line_effect, effect_progress in H1.
    apply IH in H2. lia.
Qed.

(** No feed of fewer than 1004 lines loads: the table needs more than 1000
    pairs, and one line each at least for the provenance, the clique and
    the exchange points. *)
Theorem minimum_feed_length fd self :
  __init__ fd = OK self -> (1004 <= length fd)%nat.
Proof.
  intros H. apply init_OK in H as (Hfe & Hs & Hc & Hi & Hn).
  apply for_each_progress in Hfe. unfold progress in Hfe.
  rewrite (filled_nonempty _ Hs), (filled_nonempty _ Hc), (filled_nonempty _ Hi) in Hfe.
  cbn in Hfe. unfold filled in Hfe. rewrite map_size_empty in Hfe.
  repeat (destruct (decide _) in Hfe; [|contradiction]). lia.
Qed.

Lemma minimum_feed_length_witness : (1004 <= length sample_feed)%nat.
Proof.
  apply (minimum_feed_length sample_feed sample_db). exact sample_loads.
Defined.

(** ** AS numbers *)

Lemma int_digits_nonneg s n : run isdigit s -> Py.int s = OK n -> 0 <= n.
Proof.
  intros Hrun Hn. destruct (int_digits s Hrun) as (m & Hm & Hpos).
  rewrite Hn in Hm. apply OK_inj in Hm as ->. exact Hpos.
Qed.

Lemma int_list_nonneg prefix line g s z :
  Re.int_list prefix line = Some g -> int_set (Py.split g) = OK s -> z ∈ s -> 0 <= z.
Proof.
  intros Hg Hs Hz. apply int_list_inv in Hg as [_ [_ Hall]].
  apply (int_set_spec _ _ Hs) in Hz as (t & Hin & Ht).
  pose proof (split_tokens g Hall) as Htok.
  rewrite Forall_forall in Htok. apply (int_digits_nonneg t); [|exact Ht].
  apply Htok, list_elem_of_In, Hin.
Qed.

(** No AS number of the table is negative: not in a stored pair, not in
    the clique, not among the exchange points.  A sign is only read in the
    code field. *)
Theorem as_numbers_nonnegative fd self :
  for_each fd new_db = OK (tt, self) ->
  (forall a b r, pair2rel self !! (a, b) = Some r -> 0 <= a /\ 0 <= b) /\
  (forall z, z ∈ clique self -> 0 <= z) /\
  (forall z, z ∈ ixps self -> 0 <= z).
Proof.
  apply (for_each_invariant
           (fun s =>
              (forall a b r, pair2rel s !! (a, b) = Some r -> 0 <= a /\ 0 <= b) /\
              (forall z, z ∈ clique s -> 0 <= z) /\
              (forall z, z ∈ ixps s -> 0 <= z))).
  - intros line s s' (Hp & Hc & Hi) He.
    destruct He; cbn [sources clique ixps pair2rel set_sources set_clique set_ixps
                      set_pair2rel]; (split; [|split]); try assumption.
    + intros z. now apply (int_list_nonneg "# inferred clique: " line g s0).
    + intros z. now apply (int_list_nonneg "# IXP ASes: " line g s0).
    + intros a b r. rewrite lookup_insert. case_decide as Hk; [|apply Hp].
      intros _. inversion Hk; subst.
      match goal with
      | Hre : _relationship_regexp _ = Some _ |- _ =>
          apply relationship_regexp_inv in Hre as (R1 & R2 & _)
      end.
      split; [apply (int_digits_nonneg g1) | apply (int_digits_nonneg g2)]; assumption.
  - cbn. split; [|split].
    + intros a b r. rewrite lookup_empty. discriminate.
    + intros z Hz. now apply not_elem_of_empty in Hz.
    + intros z Hz. now apply not_elem_of_empty in Hz.
Qed.

Lemma as_numbers_nonnegative_witness :
  (forall a b r, pair2rel short_db !! (a, b) = Some r -> 0 <= a /\ 0 <= b) /\
  (forall z, z ∈ clique short_db -> 0 <= z) /\
  (forall z, z ∈ ixps short_db -> 0 <= z).
Proof.
  apply (as_numbers_nonnegative short_feed short_db). exact short_loop.
Defined.

(** ** Repeated lines *)

Lemma process_line_twice raw self self1 :
  process_line raw self = OK (tt, self1) -> process_line raw self1 = OK (tt, self1).
Proof.
  intros H. apply process_line_effect in H. apply process_line_effect.
  destruct H as
      [g src d Hsrc Hnew Hd Hp Hdate Hpos
      |g s Hsrc Hcl Hs
      |g s Hsrc Hcl Hix Hs
      |g1 g2 g3 as1 as2 rel Hsrc Hcl Hix Hrel H1 H2 H3 Hv
      |rest Hsrc Hcl Hix Hrel Hline].
  - set (self1 := set_sources ({[src]} ∪ sources self) self).
    replace self1 with (set_sources ({[src]} ∪ sources self1) self1) at 2;
      [now apply (effect_source _ _ g src d)|].
    unfold self1, set_sources. cbn. f_equal.
    rewrite (assoc_L (∪)). now rewrite (idemp_L (∪)).
  - set (self1 := set_clique s self).
    change self1 with (set_clique s self1) at 2. now apply (effect_clique _ _ g s).
  - set (self1 := set_ixps s self).
    change self1 with (set_ixps s self1) at 2. now apply (effect_ixps _ _ g s).
  - set (self1 := set_pair2rel (<[(as1, as2) := rel]> (pair2rel self)) self).
    replace self1 with (set_pair2rel (<[(as1, as2) := rel]> (pair2rel self1)) self1) at 2;
      [now apply (effect_relationship _ _ g1 g2 g3 as1 as2 rel)|].
    unfold self1, set_pair2rel. cbn. f_equal. apply insert_insert_eq.
  - now apply (effect_comment _ _ rest).
Qed.

Lemma for_each_repeated pre raw post self :
  for_each (pre ++ raw :: raw :: post) self = for_each (pre ++ raw :: post) self.
Proof.
  rewrite !for_each_app.
  destruct (for_each pre self) as [e|[[] self0]]; [reflexivity|].
  cbn [for_each]. unfold bind.
  destruct (process_line raw self0) as [e|[[] self1]] eqn:Hraw; [reflexivity|].
  now rewrite (process_line_twice raw self0 self1 Hraw).
Qed.

(** Reading a line twice in a row is the same as reading it once, whether
    the feed loads or raises. *)
Theorem repeated_line_ignored pre raw post :
  __init__ (pre ++ raw :: raw :: post) = __init__ (pre ++ raw :: post).
Proof.
  unfold __init__, bind. now rewrite for_each_repeated.
Qed.

(** ** The self-test *)

Lemma init_codes_valid fd db : __init__ fd = OK db -> codes_valid db.
Proof. intros H. apply init_OK in H as [Hfe _]. now apply (for_each_codes_valid fd). Qed.

(** The self-test of the module passes exactly on the feeds that load,
    store AS1 as a provider of AS2 and not the reverse pair, and store AS1
    and AS1614 as peers in at least one order and as nothing else in the
    other. *)
Theorem selftest_passes_iff fd :
  __main__ fd = OK tt <->
  exists db,
    __init__ fd = OK db /\
    pair2rel db !! (1, 2) = Some P2C /\
    pair2rel db !! (2, 1) = None /\
    (pair2rel db !! (1, 1614) = Some P2P \/ pair2rel db !! (1614, 1) = Some P2P) /\
    pair2rel db !! (1, 1614) <> Some P2C /\
    pair2rel db !! (1614, 1) <> Some P2C.
Proof.
  unfold __main__. destruct (__init__ fd) as [e|db] eqn:Hinit.
  { split; [discriminate | intros (db & Hdb & _); discriminate]. }
  pose proof (init_codes_valid fd db Hinit) as Hv.
  unfold expect, __getitem__, OK, Raise. cbn [fst snd].
  split.
  - intros H. exists db. split; [reflexivity|].
    destruct (pair2rel db !! (1, 2)) as [r12|] eqn:H12;
      [destruct (Hv _ _ H12) as [-> | ->]; [|discriminate]
      |destruct (pair2rel db !! (2, 1)) as [r21|] eqn:H21;
         [destruct (Hv _ _ H21) as [-> | ->]|]; discriminate].
    cbn in H.
    destruct (pair2rel db !! (2, 1)) as [r21|] eqn:H21;
      [destruct (Hv _ _ H21) as [-> | ->]; discriminate|].
    cbn in H.
    destruct (pair2rel db !! (1, 1614)) as [ra|] eqn:Ha;
      [destruct (Hv _ _ Ha) as [-> | ->]; [discriminate|]|];
      (destruct (pair2rel db !! (1614, 1)) as [rb|] eqn:Hb;
         [destruct (Hv _ _ Hb) as [-> | ->]; [discriminate|]|]);
      try discriminate;
      (split; [reflexivity | split; [reflexivity | split; [auto | split; discriminate]]]).
  - intros (db' & Hdb & H12 & H21 & Hpeer & Ha & Hb). inversion Hdb; subst db'.
    rewrite H12, H21. cbn.
    destruct (pair2rel db !! (1, 1614)) as [ra|] eqn:Hra;
      [destruct (Hv _ _ Hra) as [-> | ->]; [congruence|]|];
      (destruct (pair2rel db !! (1614, 1)) as [rb|] eqn:Hrb;
         [destruct (Hv _ _ Hrb) as [-> | ->]; [congruence|]|]);
      try reflexivity.
    destruct Hpeer; discriminate.
Qed.

Lemma selftest_passes_iff_witness :
  exists db,
    __init__ selftest_feed = OK db /\
    pair2rel db !! (1, 2) = Some P2C /\
    pair2rel db !! (2, 1) = None /\
    (pair2rel db !! (1, 1614) = Some P2P \/ pair2rel db !! (1614, 1) = Some P2P) /\
    pair2rel db !! (1, 1614) <> Some P2C /\
    pair2rel db !! (1614, 1) <> Some P2C.
Proof.
  apply (proj1 (selftest_passes_iff selftest_feed)). vm_compute. reflexivity.
Defined.

(** ** The order of the lines *)

Lemma union_swap {A} `{Countable A} (a b : A) (S : gset A) :
  {[b]} ∪ ({[a]} ∪ S) = {[a]} ∪ ({[b]} ∪ S).
Proof. rewrite !(assoc_L (∪)). now rewrite (comm_L (∪) {[b]} {[a]}). Qed.

(** Two lines that return one after the other also return in the other
    order, with the same table, unless both set the clique, both set the
    exchange points, or both store the same pair. *)
Lemma effects_commute l1 l2 s s1 s2 :
  line_effect l1 s s1 -> line_effect l2 s1 s2 ->
  (Re.clique l1 = None \/ Re.clique l2 = None) ->
  (Re.ixps l1 = None \/ Re.ixps l2 = None) ->
  (forall g1 g2 g3 h1 h2 h3,
     _relationship_regexp l1 = Some (g1, g2, g3) ->
     _relationship_regexp l2 = Some (h1, h2, h3) ->
     ~ (Py.int g1 = Py.int h1 /\ Py.int g2 = Py.int h2)) ->
  exists s1', line_effect l2 s s1' /\ line_effect l1 s1' s2.
Proof.
  intros E1 E2 Hc Hi Hr.
  destruct E1 as
      [g src d Hsrc Hnew Hd Hp Hdate Hpos
      |g c Hsrc Hcl Hs
      |g c Hsrc Hcl Hix Hs
      |g1 g2 g3 as1 as2 rel Hsrc Hcl Hix Hrel H1 H2 H3 Hv
      |rest Hsrc Hcl Hix Hrel Hline];
    destruct E2 as
      [g' src' d' Hsrc' Hnew' Hd' Hp' Hdate' Hpos'
      |g' c' Hsrc' Hcl' Hs'
      |g' c' Hsrc' Hcl' Hix' Hs'
      |h1 h2 h3 bs1 bs2 rel' Hsrc' Hcl' Hix' Hrel' H1' H2' H3' Hv'
      |rest' Hsrc' Hcl' Hix' Hrel' Hline'];
    try (destruct Hc; congruence); try (destruct Hi; congruence);
    cbn [sources clique ixps pair2rel set_sources set_clique set_ixps set_pair2rel].
  all: eexists; (split; [econstructor; eassumption|]);
    unfold set_sources, set_clique, set_ixps, set_pair2rel;
    cbn [sources clique ixps pair2rel];
    try (econstructor; eassumption);
    try (match goal with
         | |- line_effect ?l ?t _ =>
             first
               [ refine (effect_source l t _ _ _ _ _ _ _ _ _); eassumption
               | refine (effect_clique l t _ _ _ _ _); eassumption
               | refine (effect_ixps l t _ _ _ _ _ _); eassumption
               | refine (effect_relationship l t _ _ _ _ _ _ _ _ _ _ _ _ _ _);
                 eassumption ]
         end).
  - rewrite union_swap.
    match goal with
    | |- line_effect _ ?t _ =>
        exact (effect_source l1 t g src d Hsrc Hnew Hd Hp Hdate Hpos)
    end.
  - rewrite insert_insert_ne.
    + match goal with
      | |- line_effect _ ?t _ =>
          exact (effect_relationship l1 t g1 g2 g3 as1 as2 rel Hsrc Hcl Hix Hrel
                   H1 H2 H3 Hv)
      end.
    + intros Heq. inversion Heq; subst.
      apply (Hr _ _ _ _ _ _ Hrel Hrel'). split; congruence.
Qed.

(** A feed that loads gives the same table when two adjacent lines are
    swapped, unless both lines set the clique, both set the exchange
    points, or both are relationship lines of the same pair in the same
    order. *)
Theorem adjacent_lines_commute pre r1 r2 post db :
  __init__ (pre ++ r1 :: r2 :: post) = OK db ->
  (Re.clique (Py.strip r1) = None \/ Re.clique (Py.strip r2) = None) ->
  (Re.ixps (Py.strip r1) = None \/ Re.ixps (Py.strip r2) = None) ->
  (forall g1 g2 g3 h1 h2 h3,
     _relationship_regexp (Py.strip r1) = Some (g1, g2, g3) ->
     _relationship_regexp (Py.strip r2) = Some (h1, h2, h3) ->
     ~ (Py.int g1 = Py.int h1 /\ Py.int g2 = Py.int h2)) ->
  __init__ (pre ++ r2 :: r1 :: post) = OK db.
Proof.
  intros H Hc Hi Hr. apply init_OK in H as [Hfe Hl]. apply init_OK.
  split; [|exact Hl].
  rewrite for_each_app in *.
  destruct (for_each pre new_db) as [e|[[] s0]]; [discriminate|].
  cbn [for_each] in *.
  apply bind_OK in Hfe as ([] & s1 & E1 & Hfe).
  apply bind_OK in Hfe as ([] & s2 & E2 & Hpost).
  apply process_line_effect in E1, E2.
  destruct (effects_commute _ _ _ _ _ E1 E2 Hc Hi Hr) as (s1' & F2 & F1).
  apply process_line_effect in F1, F2.
  apply bind_OK. exists tt, s1'. split; [exact F2|].
  apply bind_OK. exists tt, s2. split; [exact F1 | exact Hpost].
Qed.


Lemma adjacent_lines_commute_witness :
  __init__ (firstn 2 sample_header ++
            ("# IXP ASes: 1200 4635 5507" ++ nl) ::
            ("# inferred clique: 174 209 286 701" ++ nl) ::
            skipn 4 sample_feed) = OK sample_db.
Proof.
  apply (adjacent_lines_commute (firstn 2 sample_header)
           ("# inferred clique: 174 209 286 701" ++ nl)
           ("# IXP ASes: 1200 4635 5507" ++ nl)
           (skipn 4 sample_feed) sample_db).
  - exact sample_loads.
  - right. vm_compute. reflexivity.
  - left. vm_compute. reflexivity.
  - intros g1 g2 g3 h1 h2 h3 H. vm_compute in H. discriminate.
Defined.

(** ** Where the stored pairs come from *)

Lemma for_each_pair_origin fd : forall self self' a b r,
  for_each fd self = OK (tt, self') ->
  pair2rel self' !! (a, b) = Some r ->
  pair2rel self !! (a, b) = Some r \/
  exists raw g1 g2 g3,
    In raw fd /\ _relationship_regexp (Py.strip raw) = Some (g1, g2, g3) /\
    Py.int g1 = OK a /\ Py.int g2 = OK b /\ Py.int g3 = OK r.
Proof.
  induction fd as [|raw fd IH]; simpl; intros self self' a b r H Hl.
  - inversion H; subst. now left.
  - apply bind_OK in H as ([] & self1 & H1 & H2).
    destruct (IH _ _ _ _ _ H2 Hl) as [Hin1|(raw' & g1 & g2 & g3 & Hin & Hrest)].
    + apply process_line_effect in H1.
      destruct H1 as
        [g src d Hsrc Hnew Hd Hp Hdate Hpos
        |g s Hsrc Hcl Hs
        |g s Hsrc Hcl Hix Hs
        |g1 g2 g3 as1 as2 rel Hsrc Hcl Hix Hrel H1 H2' H3 Hv
        |rest Hsrc Hcl Hix Hrel Hline]; try (now left).
      cbn [pair2rel set_pair2rel] in Hin1. rewrite lookup_insert in Hin1.
      case_decide as Hk; [|now left].
      inversion Hk; subst. inversion Hin1; subst.
      right. exists raw, g1, g2, g3. auto.
    + right. exists raw', g1, g2, g3. split; [now right | exact Hrest].
Qed.

(** The table stores nothing that the feed does not list: every stored
    pair and its code are the three integers of a relationship line of the
    feed. *)
Theorem stored_pairs_come_from_feed fd self a b r :
  for_each fd new_db = OK (tt, self) ->
  pair2rel self !! (a, b) = Some r ->
  exists raw g1 g2 g3,
    In raw fd /\ _relationship_regexp (Py.strip raw) = Some (g1, g2, g3) /\
    Py.int g1 = OK a /\ Py.int g2 = OK b /\ Py.int g3 = OK r.
Proof.
  intros Hfe Hl. destruct (for_each_pair_origin fd _ _ _ _ _ Hfe Hl) as [Hn|H];
    [|exact H].
  cbn in Hn. rewrite lookup_empty in Hn. discriminate.
Qed.

Lemma stored_pairs_come_from_feed_witness :
  exists raw g1 g2 g3,
    In raw short_feed /\ _relationship_regexp (Py.strip raw) = Some (g1, g2, g3) /\
    Py.int g1 = OK 2 /\ Py.int g2 = OK 1 /\ Py.int g3 = OK P2C.
Proof.
  apply (stored_pairs_come_from_feed short_feed short_db 2 1 P2C);
    [exact short_loop | vm_compute; reflexivity].
Defined.
